(** * scripts/balance_train.py: the two-agent PPO training driver

    A shallow embedding of the driver script.  The script is straight-line
    code over objects of other packages (gym, torch, the vector environment,
    the PPO agent), so it is modelled as a program in a small trace-and-
    exception monad: every call the script makes on such an object, and
    that returns, is an event of the trace, in program order; a statement
    that raises ends the run with its exception.  Four statements can:
    [np.random.seed] on a seed outside 0..2**32-1 ([ValueError]),
    [assert args.cuda], the division in [num_updates], and [tqdm], which
    takes [len] of the range ([OverflowError] above [sys.maxsize]).  The
    objects of the packages that are not among the sources (the
    environments, the agents) are opaque: their calls are taken to return,
    and what they return is kept symbolic.  Python [int] is [Z], Python
    [float] is the binary64 [float]. *)

From Stdlib Require Import ZArith List String Ascii Bool Lia.
From Stdlib Require Import DecimalString DecimalZ.
From Stdlib Require Import QArith Qabs Lqa.
From Stdlib Require Import PrimFloat.
Import ListNotations.

#[local] Set Warnings "-inexact-float".
#[local] Open Scope string_scope.
#[local] Open Scope Z_scope.

(** ** Python primitives used by the script *)

Module Py.

(** The exceptions the statements of the script can raise. *)
Inductive Exception : Type :=
| AssertionError
| ZeroDivisionError
| ValueError
| OverflowError.

(** [str(n)] on an [int]: decimal digits, a leading [-] when negative. *)
Definition str (n : Z) : string := NilZero.string_of_int (Z.to_int n).

(** [int(s)] on a decimal string, the inverse of [str]. *)
Definition int_of_str (s : string) : option Z :=
  option_map Z.of_int (NilZero.int_of_string s).

(** [a // b] on [int]: floor division, [ZeroDivisionError] when [b] is 0. *)
Definition floordiv (a b : Z) : Exception + Z :=
  if b =? 0 then inl ZeroDivisionError else inr (a / b).

(** [range(n)]: 0, 1, ..., n-1; empty when [n <= 0]. *)
Definition range (n : Z) : list Z := map Z.of_nat (seq 0 (Z.to_nat n)).

(** [sys.maxsize] of a 64-bit build. *)
Definition maxsize : Z := 2 ^ 63 - 1.

(** [len(range(n))]: [OverflowError] when the length does not fit
    [sys.maxsize]. *)
Definition len_range (n : Z) : Exception + Z :=
  if n >? maxsize then inl OverflowError else inr (Z.max 0 n).

(** The seeds [np.random.seed] takes: 0 to 2**32 - 1. *)
Definition seed_in_range (s : Z) : bool := (0 <=? s) && (s <? 2 ^ 32).

End Py.

Import Py.

(** ** The parsed command line ([parse_args]) *)

Record Args : Type := {
  exp_name : string;
  seed : Z;
  torch_deterministic : bool;
  cuda : bool;
  madrona : bool;
  total_timesteps : Z;
  num_envs : Z;
  learning_rate : float;
  num_steps : Z;
  anneal_lr : bool;
  gamma : float;
  gae_lambda : float;
  num_minibatches : Z;
  update_epochs : Z;
  norm_adv : bool;
  clip_coef : float;
  clip_vloss : bool;
  ent_coef : float;
  vf_coef : float;
  max_grad_norm : float;
  target_kl : option float
}.

(** The [default=] values of [parse_args]. *)
Definition default_args : Args := {|
  exp_name := "balance_train";
  seed := 1;
  torch_deterministic := true;
  cuda := true;
  madrona := true;
  total_timesteps := 5000000;
  num_envs := 120;
  learning_rate := 2.5e-4%float;
  num_steps := 60;
  anneal_lr := true;
  gamma := 0.99%float;
  gae_lambda := 0.95%float;
  num_minibatches := 1;
  update_epochs := 4;
  norm_adv := true;
  clip_coef := 0.2%float;
  clip_vloss := true;
  ent_coef := 0.01%float;
  vf_coef := 0.5%float;
  max_grad_norm := 0.5%float;
  target_kl := None
|}.

(** Functional updates of the fields the properties vary. *)
Definition with_cuda (b : bool) (a : Args) : Args :=
  {| exp_name := exp_name a; seed := seed a;
     torch_deterministic := torch_deterministic a; cuda := b;
     madrona := madrona a; total_timesteps := total_timesteps a;
     num_envs := num_envs a; learning_rate := learning_rate a;
     num_steps := num_steps a; anneal_lr := anneal_lr a; gamma := gamma a;
     gae_lambda := gae_lambda a; num_minibatches := num_minibatches a;
     update_epochs := update_epochs a; norm_adv := norm_adv a;
     clip_coef := clip_coef a; clip_vloss := clip_vloss a;
     ent_coef := ent_coef a; vf_coef := vf_coef a;
     max_grad_norm := max_grad_norm a; target_kl := target_kl a |}.

Definition with_madrona (b : bool) (a : Args) : Args :=
  {| exp_name := exp_name a; seed := seed a;
     torch_deterministic := torch_deterministic a; cuda := cuda a;
     madrona := b; total_timesteps := total_timesteps a;
     num_envs := num_envs a; learning_rate := learning_rate a;
     num_steps := num_steps a; anneal_lr := anneal_lr a; gamma := gamma a;
     gae_lambda := gae_lambda a; num_minibatches := num_minibatches a;
     update_epochs := update_epochs a; norm_adv := norm_adv a;
     clip_coef := clip_coef a; clip_vloss := clip_vloss a;
     ent_coef := ent_coef a; vf_coef := vf_coef a;
     max_grad_norm := max_grad_norm a; target_kl := target_kl a |}.

Definition with_sizes (total envs steps : Z) (a : Args) : Args :=
  {| exp_name := exp_name a; seed := seed a;
     torch_deterministic := torch_deterministic a; cuda := cuda a;
     madrona := madrona a; total_timesteps := total;
     num_envs := envs; learning_rate := learning_rate a;
     num_steps := steps; anneal_lr := anneal_lr a; gamma := gamma a;
     gae_lambda := gae_lambda a; num_minibatches := num_minibatches a;
     update_epochs := update_epochs a; norm_adv := norm_adv a;
     clip_coef := clip_coef a; clip_vloss := clip_vloss a;
     ent_coef := ent_coef a; vf_coef := vf_coef a;
     max_grad_norm := max_grad_norm a; target_kl := target_kl a |}.

(** ** The objects the script builds *)

(** What one call of a [make_env] thunk does, in order. *)
Inductive SubEnvCall : Type :=
| PantheonLine_new
| env_seed (s : Z)
| action_space_seed (s : Z)
| observation_space_seed (s : Z).

(** The closure [thunk] returned by [make_env(seed, idx)]: it captures
    [seed]; [idx] is not used by its body. *)
Record Thunk : Type := { thunk_seed : Z }.

Definition make_env (seed idx : Z) : Thunk := {| thunk_seed := seed |}.

Definition thunk_call (t : Thunk) : list SubEnvCall :=
  [ PantheonLine_new;
    env_seed (thunk_seed t);
    action_space_seed (thunk_seed t);
    observation_space_seed (thunk_seed t) ].

(** The value bound to [env]: one of the two backends, by the positional
    arguments of its constructor call. *)
Inductive Env : Type :=
| BalanceMadronaTorch (arg0 arg1 : Z) (arg2 : bool)
| SyncVectorEnv (env_fns : list Thunk).

(** [torch.device(s)]. *)
Record Device : Type := { device_type : string }.

Definition torch_device (s : string) : Device := {| device_type := s |}.

(** The keyword arguments of one [CleanPPOAgent(...)] call. *)
Record CleanPPOAgent : Type := {
  kw_envs : Env;
  kw_name : string;
  kw_device : Device;
  kw_num_updates : Z;
  kw_verbose : bool;
  kw_lr : float;
  kw_num_steps : Z;
  kw_anneal_lr : bool;
  kw_gamma : float;
  kw_gae_lambda : float;
  kw_num_minibatches : Z;
  kw_update_epochs : Z;
  kw_norm_adv : bool;
  kw_clip_coef : float;
  kw_clip_vloss : bool;
  kw_ent_coef : float;
  kw_vf_coef : float;
  kw_max_grad_norm : float;
  kw_target_kl : option float
}.

(** The two agent objects, by the variable that holds them. *)
Inductive AgentVar : Type := ego | partner.

(** Values returned by foreign calls, kept symbolic: the observation batch
    of [env.reset()] or of the step of iteration [iter], the action batch
    chosen in iteration [iter], and the rewards and dones of its step. *)
Inductive Obs : Type := obs_of_reset | obs_of_step (iter : Z).
Inductive Action : Type := action_of (iter : Z).
Inductive Rewards : Type := rewards_of_step (iter : Z).
Inductive Dones : Type := dones_of_step (iter : Z).

(** ** Events: the calls the script makes, in program order *)

Inductive Event : Type :=
| print (objs : list string)
| new_env (e : Env)
| random_seed (s : Z)
| np_random_seed (s : Z)
| torch_manual_seed (s : Z)
| set_cudnn_deterministic (b : bool)
| new_agent (v : AgentVar) (kw : CleanPPOAgent)
| env_add_partner_agent (v : AgentVar)
| env_reset
| get_action (v : AgentVar) (o : Obs) (record : bool)
| env_step (a : Action)
| update (v : AgentVar) (r : Rewards) (d : Dones).

(** ** The trace-and-exception monad *)

Inductive result (A : Type) : Type :=
| Returned (a : A)
| Raised (e : Exception).
Arguments Returned {A} a.
Arguments Raised {A} e.

Definition M (A : Type) : Type := (list Event * result A)%type.

Definition ret {A} (a : A) : M A := ([], Returned a).

Definition bind {A B} (m : M A) (k : A -> M B) : M B :=
  match m with
  | (t, Returned a) => let (t', r) := k a in ((t ++ t')%list, r)
  | (t, Raised e) => (t, Raised e)
  end.

(** A foreign call: one event, and the symbolic value it returns. *)
Definition call {A} (e : Event) (v : A) : M A := ([e], Returned v).

Definition raise {A} (e : Exception) : M A := ([], Raised e).

(** [assert b]. *)
Definition assert (b : bool) : M unit :=
  if b then ret tt else raise AssertionError.

Definition lift {A} (r : Exception + A) : M A :=
  match r with
  | inl e => raise e
  | inr a => ret a
  end.

Notation "x <- m ;; k" := (bind m (fun x => k))
  (at level 61, m at next level, right associativity).
Notation "m ;;; k" := (bind m (fun _ => k))
  (at level 61, right associativity).

(** [np.random.seed(s)]: [ValueError] for a seed outside 0..2**32-1. *)
Definition numpy_seed (s : Z) : M unit :=
  if seed_in_range s then call (np_random_seed s) tt else raise ValueError.

(** [tqdm(range(n), ...)]: the constructor takes [len] of the range; the
    iteration then yields the items of the range. *)
Definition tqdm_range (n : Z) : M (list Z) :=
  _ <- lift (len_range n) ;; ret (range n).

(** [for x in xs: s = body(x, s)], threading the rebound variable [s]. *)
Fixpoint for_each {S : Type} (xs : list Z) (body : Z -> S -> M S) (s : S) : M S :=
  match xs with
  | [] => ret s
  | x :: xs' => s' <- body x s ;; for_each xs' body s'
  end.

Definition trace {A} (m : M A) : list Event := fst m.
Definition outcome {A} (m : M A) : result A := snd m.

(** ** The script *)

(** Line 84: the f-string. *)
Definition run_name (unix_time : Z) (args : Args) : string :=
  "Balance_Train__" ++ str (seed args) ++ "__" ++ str unix_time ++ "__"
    ++ str (num_envs args) ++ "_"
    ++ (if madrona args then "madrona" else "numpy").

(** Lines 88-93: the backend. *)
Definition make_backend (args : Args) : Env :=
  if madrona args
  then BalanceMadronaTorch (num_envs args) 0 false
  else SyncVectorEnv
         (map (fun i => make_env (seed args + i) i) (range (num_envs args))).

(** Lines 104-124. *)
Definition ego_kwargs (env : Env) (name : string) (num_updates : Z)
  (args : Args) : CleanPPOAgent := {|
  kw_envs := env;
  kw_name := name ++ "_ego";
  kw_device := torch_device "cpu";
  kw_num_updates := num_updates;
  kw_verbose := true;
  kw_lr := learning_rate args;
  kw_num_steps := num_steps args;
  kw_anneal_lr := anneal_lr args;
  kw_gamma := gamma args;
  kw_gae_lambda := gae_lambda args;
  kw_num_minibatches := num_minibatches args;
  kw_update_epochs := update_epochs args;
  kw_norm_adv := norm_adv args;
  kw_clip_coef := clip_coef args;
  kw_clip_vloss := clip_vloss args;
  kw_ent_coef := ent_coef args;
  kw_vf_coef := vf_coef args;
  kw_max_grad_norm := max_grad_norm args;
  kw_target_kl := target_kl args
|}.

(** Lines 126-146. *)
Definition partner_kwargs (env : Env) (name : string) (num_updates : Z)
  (args : Args) : CleanPPOAgent := {|
  kw_envs := env;
  kw_name := name ++ "_alt";
  kw_device := torch_device "cpu";
  kw_num_updates := num_updates;
  kw_verbose := true;
  kw_lr := learning_rate args;
  kw_num_steps := num_steps args;
  kw_anneal_lr := anneal_lr args;
  kw_gamma := gamma args;
  kw_gae_lambda := gae_lambda args;
  kw_num_minibatches := num_minibatches args;
  kw_update_epochs := update_epochs args;
  kw_norm_adv := norm_adv args;
  kw_clip_coef := clip_coef args;
  kw_clip_vloss := clip_vloss args;
  kw_ent_coef := ent_coef args;
  kw_vf_coef := vf_coef args;
  kw_max_grad_norm := max_grad_norm args;
  kw_target_kl := target_kl args
|}.

(** Lines 153-157: one pass of the loop body; [obs] is rebound. *)
Definition loop_body (iter : Z) (obs : Obs) : M Obs :=
  action <- call (get_action ego obs true) (action_of iter) ;;
  step <- call (env_step action)
            (obs_of_step iter, rewards_of_step iter, dones_of_step iter) ;;
  let '(obs', rewards, dones) := step in
  call (update ego rewards dones) tt ;;;
  ret obs'.

(** Lines 83-157, top to bottom.  [unix_time] is [int(time.time())].
    [random.seed] takes every [int], and [torch.manual_seed] every seed that
    got past [np.random.seed]. *)
Definition main (unix_time : Z) (args : Args) : M unit :=
  let name := run_name unix_time args in
  call (print ["Run saved to:"; name]) tt ;;;
  let env := make_backend args in
  call (new_env env) tt ;;;
  call (random_seed (seed args)) tt ;;;
  numpy_seed (seed args) ;;;
  call (torch_manual_seed (seed args)) tt ;;;
  call (set_cudnn_deterministic (torch_deterministic args)) tt ;;;
  assert (cuda args) ;;;
  num_updates <- lift (floordiv (total_timesteps args)
                         (num_envs args * num_steps args)) ;;
  call (new_agent ego (ego_kwargs env name num_updates args)) tt ;;;
  call (new_agent partner (partner_kwargs env name num_updates args)) tt ;;;
  call (env_add_partner_agent partner) tt ;;;
  obs <- call env_reset obs_of_reset ;;
  iters <- tqdm_range (num_updates * num_steps args) ;;
  for_each iters loop_body obs ;;;
  ret tt.

(** ** Observations on traces *)

Definition is_new_env (e : Event) : bool :=
  match e with new_env _ => true | _ => false end.
Definition is_new_agent (e : Event) : bool :=
  match e with new_agent _ _ => true | _ => false end.
Definition is_add_partner (e : Event) : bool :=
  match e with env_add_partner_agent _ => true | _ => false end.
Definition is_reset (e : Event) : bool :=
  match e with env_reset => true | _ => false end.
Definition is_get_action (e : Event) : bool :=
  match e with get_action _ _ _ => true | _ => false end.
Definition is_step (e : Event) : bool :=
  match e with env_step _ => true | _ => false end.
Definition is_update (e : Event) : bool :=
  match e with update _ _ _ => true | _ => false end.

Definition AgentVar_eqb (a b : AgentVar) : bool :=
  match a, b with
  | ego, ego | partner, partner => true
  | _, _ => false
  end.

(** [update] called on the agent held by [v]. *)
Definition is_update_of (v : AgentVar) (e : Event) : bool :=
  match e with update w _ _ => AgentVar_eqb v w | _ => false end.

(** A method call on the [env] object. *)
Definition is_env_call (e : Event) : bool :=
  is_add_partner e || is_reset e || is_step e.

(** An event of the training loop. *)
Definition is_loop_event (e : Event) : bool :=
  is_get_action e || is_step e || is_update e.

Definition count (p : Event -> bool) (t : list Event) : nat :=
  List.length (filter p t).

(** The backends constructed, in order. *)
Definition envs_built (t : list Event) : list Env :=
  flat_map (fun e => match e with new_env v => [v] | _ => [] end) t.

(** The agents constructed, in order. *)
Definition agents_built (t : list Event) : list (AgentVar * CleanPPOAgent) :=
  flat_map (fun e => match e with new_agent v kw => [(v, kw)] | _ => [] end) t.

(** Every string the script hands out: what it prints and the [name=] of
    the agents. *)
Definition strings_emitted (t : list Event) : list string :=
  flat_map (fun e => match e with
                     | print objs => objs
                     | new_agent _ kw => [kw_name kw]
                     | _ => []
                     end) t.

(** The observation held by [obs] when iteration [iter] starts. *)
Definition obs_before (iter : Z) : Obs :=
  if iter =? 0 then obs_of_reset else obs_of_step (iter - 1).

(** The three calls of iteration [iter]. *)
Definition iteration (iter : Z) : list Event :=
  [ get_action ego (obs_before iter) true;
    env_step (action_of iter);
    update ego (rewards_of_step iter) (dones_of_step iter) ].

(** The events up to and including the seeding (lines 84-98). *)
Definition startup (unix_time : Z) (args : Args) : list Event :=
  [ print ["Run saved to:"; run_name unix_time args];
    new_env (make_backend args);
    random_seed (seed args);
    np_random_seed (seed args);
    torch_manual_seed (seed args);
    set_cudnn_deterministic (torch_deterministic args) ].

(** The events between the division and the loop (lines 104-151). *)
Definition setup (unix_time : Z) (args : Args) (num_updates : Z) : list Event :=
  [ new_agent ego
      (ego_kwargs (make_backend args) (run_name unix_time args) num_updates args);
    new_agent partner
      (partner_kwargs (make_backend args) (run_name unix_time args) num_updates args);
    env_add_partner_agent partner;
    env_reset ].

(** [True] when no [env.step] comes before the first [env.reset], and no
    [env.reset] after it. *)
Fixpoint reset_then_steps (seen_reset : bool) (t : list Event) : bool :=
  match t with
  | [] => true
  | e :: t' =>
      if is_reset e then negb seen_reset && reset_then_steps true t'
      else if is_step e then seen_reset && reset_then_steps seen_reset t'
      else reset_then_steps seen_reset t'
  end.

(** [True] when an [env.add_partner_agent] comes before the first
    [env.reset]. *)
Fixpoint partner_before_reset (t : list Event) : bool :=
  match t with
  | [] => false
  | e :: t' =>
      if is_add_partner e then true
      else if is_reset e then false
      else partner_before_reset t'
  end.

(** ** The run name as the specification words it *)

(** A format template: text with [{field}] holes, filled from [fields]. *)
Fixpoint fill (fields : string -> string) (hole : option string)
  (template : string) : string :=
  match template, hole with
  | EmptyString, _ => EmptyString
  | String "{"%char rest, None => fill fields (Some EmptyString) rest
  | String "}"%char rest, Some name => fields name ++ fill fields None rest
  | String c rest, None => String c (fill fields None rest)
  | String c rest, Some name =>
      fill fields (Some (name ++ String c EmptyString)) rest
  end.

Definition spec_backend_name (madrona : bool) : string :=
  if madrona then "madrona" else "numpy".

(** The template of the specification, filled with three numerals and the
    backend name. *)
Definition spec_run_name (seed unix_time num_envs backend_name : string)
  : string :=
  fill (fun field =>
          if String.eqb field "seed" then seed
          else if String.eqb field "unix_time" then unix_time
          else if String.eqb field "num_envs" then num_envs
          else if String.eqb field "backend_name" then backend_name
          else EmptyString)
       None
       "Balance_Train__{seed}__{unix_time}__{num_envs}_{backend_name}".

Definition is_digit (c : ascii) : bool :=
  let n := nat_of_ascii c in ((48 <=? n) && (n <=? 57))%nat.

Fixpoint all_digits (s : string) : bool :=
  match s with
  | EmptyString => true
  | String c s' => is_digit c && all_digits s'
  end.

(** A non-empty run of digits that does not start with 0 unless it is "0". *)
Definition is_magnitude (s : string) : bool :=
  match s with
  | EmptyString => false
  | String c r =>
      all_digits s && (negb (Ascii.eqb c "0") || String.eqb r EmptyString)
  end.

(** The syntax of a decimal numeral: a magnitude, or a minus sign and a
    magnitude other than "0". *)
Definition is_numeral (s : string) : bool :=
  match s with
  | EmptyString => false
  | String c r =>
      if Ascii.eqb c "-" then is_magnitude r && negb (String.eqb r "0")
      else is_magnitude s
  end.

(** [s] is the decimal numeral of [n]: it has the syntax of a numeral and
    reads, digit by digit in base ten, as [n]. *)
Definition decimal_of (n : Z) (s : string) : Prop :=
  is_numeral s = true /\ int_of_str s = Some n.

(** ** Generalized advantage estimation *)

Module Gae.

#[local] Open Scope Q_scope.

(** One row of the rollout buffer, for one environment slot. *)
Record Transition : Type := {
  reward : Q;
  value : Q;
  done : bool
}.

(** [1 - done[t]]. *)
Definition nonterminal (d : bool) : Q := if d then 0 else 1.

(** Modelled from the spec: the advantage estimator run by
    [CleanPPOAgent.update] (pantheonrl_extension.vectoragent is not among the
    sources), over exact rationals.  [advantage[t] = delta[t] +
    gam*lam*(1-done[t])*advantage[t+1]], backward from the last step, with
    [delta[t] = reward[t] + gam*(1-done[t])*value[t+1] - value[t]];
    [value[T]] is the bootstrap value and [advantage[T]] is 0. *)
Fixpoint advantages (gam lam : Q) (buf : list Transition) (bootstrap : Q)
  : list Q :=
  match buf with
  | [] => []
  | tr :: rest =>
      let later := advantages gam lam rest bootstrap in
      let next_value := match rest with
                        | [] => bootstrap
                        | tr' :: _ => value tr'
                        end in
      let next_advantage := match later with
                            | [] => 0
                            | a :: _ => a
                            end in
      let delta :=
        reward tr + gam * nonterminal (done tr) * next_value - value tr in
      (delta + gam * lam * nonterminal (done tr) * next_advantage) :: later
  end.

(** Modelled from the spec: [return[t] = advantage[t] + value[t]]. *)
Definition returns (gam lam : Q) (buf : list Transition) (bootstrap : Q)
  : list Q :=
  map (fun p => fst p + value (snd p))
      (combine (advantages gam lam buf bootstrap) buf).

(** The discount and the GAE parameter of the property. *)
Definition spec_gamma : Q := 99 # 100.
Definition spec_lambda : Q := 95 # 100.

(** A buffer of all-zero rewards whose value estimate is [v] at every step;
    [dones] gives its length and its done flags. *)
Definition constant_buffer (v : Q) (dones : list bool) : list Transition :=
  map (fun d => {| reward := 0; value := v; done := d |}) dones.

(** [|x - y| <= tol]. *)
Definition within (tol x y : Q) : bool := Qle_bool (Qabs (x - y)) tol.

(** The round trip as stated, at tolerance [tol]: every advantage within
    [tol] of 0 and every return within [tol] of [v]. *)
Definition round_trip_holds (tol v : Q) (dones : list bool) : bool :=
  forallb (fun a => within tol a 0)
          (advantages spec_gamma spec_lambda (constant_buffer v dones) v)
  && forallb (fun r => within tol r v)
          (returns spec_gamma spec_lambda (constant_buffer v dones) v).

End Gae.

(** ** Quantities the script derives from the arguments *)

(** [int(args.num_envs * args.num_steps)], the divisor of line 102. *)
Definition divisor (args : Args) : Z := num_envs args * num_steps args.

(** The value bound to [num_updates] when the division of line 102 does
    not raise. *)
Definition num_updates (args : Args) : Z := total_timesteps args / divisor args.

(** The argument of [range] on line 152. *)
Definition total_iterations (args : Args) : Z :=
  num_updates args * num_steps args.

(** The events up to and including line 95. *)
Definition before_numpy (unix_time : Z) (args : Args) : list Event :=
  [ print ["Run saved to:"; run_name unix_time args];
    new_env (make_backend args);
    random_seed (seed args) ].

(** The run gets to line 104, where the agents are built: the seed suits
    numpy, the cuda flag is true and the divisor is not 0. *)
Definition reaches_agents (args : Args) : bool :=
  seed_in_range (seed args) && cuda args && negb (divisor args =? 0).

(** The run gets into the loop of line 152: it reaches the agents and
    [tqdm] can take the length of the range. *)
Definition reaches_loop (args : Args) : bool :=
  reaches_agents args && (total_iterations args <=? maxsize).

(** The run ended at line 102 or later: it returned, or it was stopped by
    the division of line 102 or by [tqdm] on line 152, the only statements
    after the assertion that can stop it. *)
Definition got_past_assertion (m : M unit) : Prop :=
  outcome m = Returned tt
  \/ outcome m = Raised ZeroDivisionError
  \/ outcome m = Raised OverflowError.

(** Both agents are built, the ego agent first, each on the cpu device. *)
Definition both_agents_on_cpu (m : M unit) : Prop :=
  exists kw_ego kw_alt,
    agents_built (trace m) = [(ego, kw_ego); (partner, kw_alt)]
    /\ kw_device kw_ego = torch_device "cpu"
    /\ kw_device kw_alt = torch_device "cpu".

(** ** Statements about a run *)

(** The run returned and its loop made [n] passes: [n] calls each of
    [get_action], [env.step] and [update]. *)
Definition loop_ran (m : M unit) (n : Z) : Prop :=
  outcome m = Returned tt /\
  Z.of_nat (count is_get_action (trace m)) = n /\
  Z.of_nat (count is_step (trace m)) = n /\
  Z.of_nat (count is_update (trace m)) = n.

(** [env.reset()] is called exactly once, after the partner is registered,
    before every [env.step], and never again. *)
Definition reset_exactly_once (m : M unit) : Prop :=
  count is_reset (trace m) = 1%nat /\
  partner_before_reset (trace m) = true /\
  reset_then_steps false (trace m) = true.

(** The run builds the backend and both agents, trains for zero passes with
    [num_updates] bound to 0, and returns. *)
Definition completes_without_training (unix_time : Z) (args : Args) : Prop :=
  floordiv (total_timesteps args) (divisor args) = inr 0 /\
  main unix_time args =
    ((startup unix_time args ++ setup unix_time args 0)%list, Returned tt).

(** ** The command line: boolean options and the default experiment name *)

Module Cli.

(** [c.lower()] on an ASCII character.  Strings are byte strings: the
    bytes of a character outside ASCII are left as they are, and since the
    words of [strtobool] are ASCII a value with such a character is none of
    them before and after lowering. *)
Definition lower_ascii (c : ascii) : ascii :=
  let n := nat_of_ascii c in
  if ((65 <=? n) && (n <=? 90))%nat then ascii_of_nat (n + 32) else c.

(** [val.lower()] on an ASCII string. *)
Fixpoint lower (s : string) : string :=
  match s with
  | EmptyString => EmptyString
  | String c s' => String (lower_ascii c) (lower s')
  end.

Definition truthy : list string := ["y"; "yes"; "t"; "true"; "on"; "1"].
Definition falsy : list string := ["n"; "no"; "f"; "false"; "off"; "0"].

(** [val in words]. *)
Definition contains (words : list string) (val : string) : bool :=
  existsb (String.eqb val) words.

(** [distutils.util.strtobool], imported on line 5: 1, 0 or [ValueError];
    the value is lowered first.  The message of the error is not
    modelled. *)
Definition strtobool (val : string) : Exception + Z :=
  let val := lower val in
  if contains truthy val then inr 1
  else if contains falsy val then inr 0
  else inl ValueError.

(** How [parse_args] ends when a value is refused: argparse catches the
    [ValueError] of the [type=] function, reports the value as it was typed
    ([invalid <lambda> value: ...]) and exits with status 2. *)
Inductive SystemExit : Type := system_exit (status : Z) (refused : string).

(** [bool(n)] on an [int]. *)
Definition bool_of_int (n : Z) : bool := negb (n =? 0).

(** [lambda x: bool(strtobool(x))], the [type=] of the boolean options. *)
Definition flag_type (x : string) : Exception + bool :=
  match strtobool x with
  | inl e => inl e
  | inr n => inr (bool_of_int n)
  end.

(** How an option stands on the command line: not at all, without a value,
    or with one. *)
Inductive Occurrence : Type :=
| absent
| bare
| given (value : string).

(** An option declared with [type=lambda x: bool(strtobool(x)),
    default=True, nargs="?", const=True] (lines 29, 31, 33, 45, 55, 59):
    the default when absent, the const when bare, the converted value
    otherwise; a value the conversion refuses ends the program. *)
Definition bool_option (o : Occurrence) : SystemExit + bool :=
  match o with
  | absent => inr true
  | bare => inr true
  | given x =>
      match flag_type x with
      | inl _ => inl (system_exit 2 x)
      | inr b => inr b
      end
  end.

(** [c in chars]. *)
Fixpoint mem_ascii (c : ascii) (chars : string) : bool :=
  match chars with
  | EmptyString => false
  | String d chars' => Ascii.eqb c d || mem_ascii c chars'
  end.

(** [s.rstrip(chars)]: [s] without its trailing characters that occur in
    [chars]. *)
Fixpoint rstrip (chars s : string) : string :=
  match s with
  | EmptyString => EmptyString
  | String c s' =>
      match rstrip chars s' with
      | EmptyString => if mem_ascii c chars then EmptyString
                       else String c EmptyString
      | String d r => String c (String d r)
      end
  end.

(** [os.path.basename(p)] on a POSIX path: what follows the last [/]. *)
Fixpoint basename (p : string) : string :=
  match p with
  | EmptyString => EmptyString
  | String c p' =>
      if mem_ascii "/"%char p' then basename p'
      else if Ascii.eqb c "/"%char then p'
      else String c p'
  end.

(** Line 25: [os.path.basename(__file__).rstrip(".py")]. *)
Definition default_exp_name (file : string) : string :=
  rstrip ".py" (basename file).

(** Every character of [s] occurs in [chars]. *)
Fixpoint all_in (chars s : string) : bool :=
  match s with
  | EmptyString => true
  | String c s' => mem_ascii c chars && all_in chars s'
  end.

(** The last character of [s] occurs in [chars]. *)
Fixpoint ends_in (chars s : string) : bool :=
  match s with
  | EmptyString => false
  | String c EmptyString => mem_ascii c chars
  | String _ s' => ends_in chars s'
  end.

End Cli.

(** ** Further observations on runs *)

Definition with_seed (s : Z) (a : Args) : Args :=
  {| exp_name := exp_name a; seed := s;
     torch_deterministic := torch_deterministic a; cuda := cuda a;
     madrona := madrona a; total_timesteps := total_timesteps a;
     num_envs := num_envs a; learning_rate := learning_rate a;
     num_steps := num_steps a; anneal_lr := anneal_lr a; gamma := gamma a;
     gae_lambda := gae_lambda a; num_minibatches := num_minibatches a;
     update_epochs := update_epochs a; norm_adv := norm_adv a;
     clip_coef := clip_coef a; clip_vloss := clip_vloss a;
     ent_coef := ent_coef a; vf_coef := vf_coef a;
     max_grad_norm := max_grad_norm a; target_kl := target_kl a |}.

Definition with_exp_name (e : string) (a : Args) : Args :=
  {| exp_name := e; seed := seed a;
     torch_deterministic := torch_deterministic a; cuda := cuda a;
     madrona := madrona a; total_timesteps := total_timesteps a;
     num_envs := num_envs a; learning_rate := learning_rate a;
     num_steps := num_steps a; anneal_lr := anneal_lr a; gamma := gamma a;
     gae_lambda := gae_lambda a; num_minibatches := num_minibatches a;
     update_epochs := update_epochs a; norm_adv := norm_adv a;
     clip_coef := clip_coef a; clip_vloss := clip_vloss a;
     ent_coef := ent_coef a; vf_coef := vf_coef a;
     max_grad_norm := max_grad_norm a; target_kl := target_kl a |}.

(** A call that seeds one of the three global generators. *)
Definition is_seed (e : Event) : bool :=
  match e with
  | random_seed _ | np_random_seed _ | torch_manual_seed _ => true
  | _ => false
  end.

(** The thunks a backend was built over (none for the batched one). *)
Definition env_fns_of (e : Env) : list Thunk :=
  match e with
  | SyncVectorEnv env_fns => env_fns
  | BalanceMadronaTorch _ _ _ => []
  end.

(** What the sub-environments of the backends of a trace do when their
    thunks are called, one list of calls per sub-environment, in order. *)
Definition sub_env_calls (t : list Event) : list (list SubEnvCall) :=
  flat_map (fun e => map thunk_call (env_fns_of e)) (envs_built t).

(** The seeds of the sub-environments, in order. *)
Definition sub_env_seeds (t : list Event) : list Z :=
  flat_map (fun e => map thunk_seed (env_fns_of e)) (envs_built t).

(** The same keyword arguments under another [name=]. *)
Definition renamed (name : string) (kw : CleanPPOAgent) : CleanPPOAgent :=
  {| kw_envs := kw_envs kw; kw_name := name; kw_device := kw_device kw;
     kw_num_updates := kw_num_updates kw; kw_verbose := kw_verbose kw;
     kw_lr := kw_lr kw; kw_num_steps := kw_num_steps kw;
     kw_anneal_lr := kw_anneal_lr kw; kw_gamma := kw_gamma kw;
     kw_gae_lambda := kw_gae_lambda kw;
     kw_num_minibatches := kw_num_minibatches kw;
     kw_update_epochs := kw_update_epochs kw; kw_norm_adv := kw_norm_adv kw;
     kw_clip_coef := kw_clip_coef kw; kw_clip_vloss := kw_clip_vloss kw;
     kw_ent_coef := kw_ent_coef kw; kw_vf_coef := kw_vf_coef kw;
     kw_max_grad_norm := kw_max_grad_norm kw;
     kw_target_kl := kw_target_kl kw |}.

(** * Properties of the driver *)

(** ** The Python primitives on small inputs *)

Example floordiv_examples :
  floordiv 5000000 (120 * 60) = inr 694
  /\ floordiv 7 (-2) = inr (-4)
  /\ floordiv (-1) 1 = inr (-1)
  /\ floordiv 5 0 = inl ZeroDivisionError.
Proof. repeat split. Qed.

(** [//] rounds toward minus infinity, for either sign of the divisor. *)
Lemma floordiv_floor (a b q : Z) :
  floordiv a b = inr q ->
  (0 < b -> b * q <= a < b * (q + 1))
  /\ (b < 0 -> b * (q + 1) < a <= b * q).
Proof.
  unfold floordiv. destruct (Z.eqb_spec b 0) as [E | E]; [discriminate |].
  intros [= <-]. split; intros Hb.
  - pose proof (Z.mod_pos_bound a b Hb). pose proof (Z.div_mod a b E). nia.
  - pose proof (Z.mod_neg_bound a b Hb). pose proof (Z.div_mod a b E). nia.
Qed.

Example range_examples :
  range 3 = [0; 1; 2] /\ range 0 = [] /\ range (-4) = [].
Proof. repeat split. Qed.

Example str_examples :
  str 120 = "120" /\ str 0 = "0" /\ str (-7) = "-7".
Proof. repeat split. Qed.

(** A run with [--total-timesteps 3 --num-envs 1 --num-steps 2]: one update
    of two steps. *)
Example main_small :
  main 1700000000 (with_sizes 3 1 2 default_args) =
  ([ print ["Run saved to:"; "Balance_Train__1__1700000000__1_madrona"];
     new_env (BalanceMadronaTorch 1 0 false);
     random_seed 1; np_random_seed 1; torch_manual_seed 1;
     set_cudnn_deterministic true;
     new_agent ego (ego_kwargs (BalanceMadronaTorch 1 0 false)
                      "Balance_Train__1__1700000000__1_madrona" 1
                      (with_sizes 3 1 2 default_args));
     new_agent partner (partner_kwargs (BalanceMadronaTorch 1 0 false)
                      "Balance_Train__1__1700000000__1_madrona" 1
                      (with_sizes 3 1 2 default_args));
     env_add_partner_agent partner;
     env_reset;
     get_action ego obs_of_reset true;
     env_step (action_of 0);
     update ego (rewards_of_step 0) (dones_of_step 0);
     get_action ego (obs_of_step 0) true;
     env_step (action_of 1);
     update ego (rewards_of_step 1) (dones_of_step 1) ],
   Returned tt).
Proof. vm_compute. reflexivity. Qed.

(** Runs that a library call stops: a seed [np.random.seed] refuses, and a
    range whose length [tqdm] cannot take. *)
Example main_stopped :
  main 0 (with_seed (-1) default_args)
  = ([ print ["Run saved to:"; "Balance_Train__-1__0__120_madrona"];
       new_env (BalanceMadronaTorch 120 0 false);
       random_seed (-1) ],
     Raised ValueError)
  /\ outcome (main 0 (with_seed 4294967296 default_args)) = Raised ValueError
  /\ outcome (main 0 (with_seed 4294967295 (with_sizes 3 1 2 default_args)))
     = Returned tt
  /\ outcome (main 0 (with_sizes (2 ^ 63) 1 1 default_args))
     = Raised OverflowError
  /\ count is_reset (trace (main 0 (with_sizes (2 ^ 63) 1 1 default_args)))
     = 1%nat
  /\ count is_step (trace (main 0 (with_sizes (2 ^ 63) 1 1 default_args)))
     = 0%nat.
Proof. repeat split; vm_compute; reflexivity. Qed.

Example len_range_examples :
  len_range 3 = inr 3 /\ len_range (-4) = inr 0
  /\ len_range (2 ^ 63 - 1) = inr (2 ^ 63 - 1)
  /\ len_range (2 ^ 63) = inl OverflowError.
Proof. repeat split. Qed.

(** ** The shape of a run *)

Lemma obs_before_succ (k : nat) :
  obs_before (Z.of_nat (S k)) = obs_of_step (Z.of_nat k).
Proof.
  unfold obs_before.
  destruct (Z.eqb_spec (Z.of_nat (S k)) 0) as [E | _]; [lia |].
  f_equal. lia.
Qed.

Lemma for_each_loop_body_from (n start : nat) :
  for_each (map Z.of_nat (seq start n)) loop_body (obs_before (Z.of_nat start)) =
  (flat_map iteration (map Z.of_nat (seq start n)),
   Returned (obs_before (Z.of_nat (start + n)))).
Proof.
  revert start. induction n as [| n IH]; intros start.
  - cbn. now rewrite Nat.add_0_r.
  - cbn [seq map for_each flat_map].
    unfold loop_body at 1. cbn [call bind ret].
    rewrite <- obs_before_succ, (IH (S start)).
    cbn. now rewrite <- plus_n_Sm.
Qed.

Lemma for_each_loop_body (n : Z) :
  for_each (range n) loop_body obs_of_reset =
  (flat_map iteration (range n), Returned (obs_before (Z.of_nat (Z.to_nat n)))).
Proof.
  unfold range. exact (for_each_loop_body_from (Z.to_nat n) 0).
Qed.

(** Every run has one of five shapes, decided by the seed, the cuda flag,
    the divisor and the length of the range. *)
Lemma main_run (unix_time : Z) (args : Args) :
  main unix_time args =
  if seed_in_range (seed args) then
    if cuda args then
      if divisor args =? 0
      then (startup unix_time args, Raised ZeroDivisionError)
      else if total_iterations args <=? maxsize
      then ((startup unix_time args
             ++ setup unix_time args (num_updates args)
             ++ flat_map iteration (range (total_iterations args)))%list,
            Returned tt)
      else ((startup unix_time args
             ++ setup unix_time args (num_updates args))%list,
            Raised OverflowError)
    else (startup unix_time args, Raised AssertionError)
  else (before_numpy unix_time args, Raised ValueError).
Proof.
  unfold main, startup, setup, before_numpy, total_iterations, num_updates,
    floordiv, numpy_seed, tqdm_range, len_range.
  fold (divisor args).
  destruct (seed_in_range (seed args)); [| reflexivity].
  destruct (cuda args); [| reflexivity].
  destruct (divisor args =? 0); [reflexivity |].
  cbn [assert lift call bind ret raise].
  rewrite Z.gtb_ltb, Z.leb_antisym.
  destruct (maxsize <? total_timesteps args / divisor args * num_steps args);
    [reflexivity |].
  cbn [negb lift bind ret raise].
  rewrite for_each_loop_body.
  cbn [bind ret app]. rewrite !app_nil_r. reflexivity.
Qed.

(** Reasoning by the shape of the run: the stopped shapes are closed by
    computation, the completed one is left as a goal on its trace. *)
Ltac by_run_shape args :=
  rewrite main_run;
  unfold reaches_loop, reaches_agents;
  destruct (seed_in_range (seed args));
    [destruct (cuda args);
     [destruct (divisor args =? 0);
      [| destruct (total_iterations args <=? maxsize)] |] |];
  try reflexivity;
  unfold trace, fst.

Lemma reaches_agents_iff (args : Args) :
  reaches_agents args = true
  <-> cuda args = true /\ 0 <= seed args < 2 ^ 32 /\ divisor args <> 0.
Proof.
  unfold reaches_agents, seed_in_range.
  rewrite !Bool.andb_true_iff, Bool.negb_true_iff, Z.leb_le, Z.ltb_lt, Z.eqb_neq.
  tauto.
Qed.

Lemma reaches_loop_iff (args : Args) :
  reaches_loop args = true
  <-> cuda args = true /\ 0 <= seed args < 2 ^ 32 /\ divisor args <> 0
      /\ total_iterations args < 2 ^ 63.
Proof.
  unfold reaches_loop. rewrite Bool.andb_true_iff, reaches_agents_iff, Z.leb_le.
  unfold maxsize. intuition lia.
Qed.

Lemma main_completes (unix_time : Z) (args : Args) :
  reaches_loop args = true ->
  main unix_time args =
  ((startup unix_time args
    ++ setup unix_time args (num_updates args)
    ++ flat_map iteration (range (total_iterations args)))%list,
   Returned tt).
Proof.
  intros H. rewrite main_run. unfold reaches_loop, reaches_agents in H.
  destruct (seed_in_range (seed args)), (cuda args), (divisor args =? 0),
    (total_iterations args <=? maxsize); try discriminate H; reflexivity.
Qed.

Lemma range_length (n : Z) : List.length (range n) = Z.to_nat n.
Proof. unfold range. now rewrite length_map, length_seq. Qed.

Lemma range_nth_error (n i : Z) :
  0 <= i < n -> nth_error (range n) (Z.to_nat i) = Some i.
Proof.
  intros H. unfold range.
  rewrite nth_error_map, nth_error_seq.
  destruct (Nat.ltb_spec (Z.to_nat i) (Z.to_nat n)) as [_ | Hge]; [| lia].
  cbn. f_equal. lia.
Qed.

Lemma count_app (p : Event -> bool) (t u : list Event) :
  count p (t ++ u) = (count p t + count p u)%nat.
Proof. unfold count. now rewrite filter_app, length_app. Qed.

(** A predicate true of exactly one of the three calls of an iteration is
    counted once per iteration. *)
Lemma count_iterations (p : Event -> bool) (l : list Z) :
  (forall i, count p (iteration i) = 1%nat) ->
  count p (flat_map iteration l) = List.length l.
Proof.
  intros H. induction l as [| i l IH]; [reflexivity |].
  cbn [flat_map]. rewrite count_app, H, IH. reflexivity.
Qed.

Lemma count_iterations_none (p : Event -> bool) (l : list Z) :
  (forall i, count p (iteration i) = 0%nat) ->
  count p (flat_map iteration l) = 0%nat.
Proof.
  intros H. induction l as [| i l IH]; [reflexivity |].
  cbn [flat_map]. rewrite count_app, H, IH. reflexivity.
Qed.

Lemma loop_counts (unix_time : Z) (args : Args) :
  reaches_loop args = true ->
  count is_get_action (trace (main unix_time args)) = Z.to_nat (total_iterations args)
  /\ count is_step (trace (main unix_time args)) = Z.to_nat (total_iterations args)
  /\ count is_update (trace (main unix_time args)) = Z.to_nat (total_iterations args).
Proof.
  intros H. rewrite (main_completes _ _ H). unfold trace, fst.
  rewrite !count_app, !count_iterations, range_length by reflexivity.
  repeat split; reflexivity.
Qed.

Lemma loop_ran_max (unix_time : Z) (args : Args) :
  reaches_loop args = true ->
  loop_ran (main unix_time args) (Z.max 0 (total_iterations args)).
Proof.
  intros H.
  destruct (loop_counts unix_time args H) as (Hg & Hs & Hu).
  unfold loop_ran. rewrite Hg, Hs, Hu, (main_completes _ _ H).
  repeat split; lia.
Qed.

(** ** The number of training iterations *)

(** C1, as stated, fails: a run with [--cuda false] stops at the assertion
    with no pass of the loop made although [num_updates * num_steps] would be
    41640; a run with [--num-steps 0] stops at the division; with
    [--total-timesteps -1 --num-envs 1 --num-steps 1] the quotient is -1
    and the loop makes 0 passes, not -1; a run with [--seed -1] stops in
    [np.random.seed] on line 96; and with [--total-timesteps
    9223372036854775808 --num-envs 1 --num-steps 1] [tqdm] cannot take the
    length of the range and the run stops on line 152. *)
Lemma fixed_iteration_count_fails :
  total_iterations (with_cuda false default_args) = 41640
  /\ ~ loop_ran (main 0 (with_cuda false default_args))
         (total_iterations (with_cuda false default_args))
  /\ ~ loop_ran (main 0 (with_sizes 5000000 120 0 default_args))
         (total_iterations (with_sizes 5000000 120 0 default_args))
  /\ ~ loop_ran (main 0 (with_sizes (-1) 1 1 default_args))
         (total_iterations (with_sizes (-1) 1 1 default_args))
  /\ ~ loop_ran (main 0 (with_seed (-1) default_args))
         (total_iterations (with_seed (-1) default_args))
  /\ ~ loop_ran (main 0 (with_sizes (2 ^ 63) 1 1 default_args))
         (total_iterations (with_sizes (2 ^ 63) 1 1 default_args)).
Proof.
  split; [reflexivity |].
  repeat split; intros (Hout & Hg & _).
  - vm_compute in Hout. discriminate.
  - vm_compute in Hout. discriminate.
  - vm_compute in Hg. discriminate.
  - vm_compute in Hout. discriminate.
  - vm_compute in Hout. discriminate.
Qed.

(** C1, amended: for every configuration with the cuda flag true, a seed
    that [np.random.seed] takes (0 to 2**32 - 1), [num_envs * num_steps]
    not 0 and [num_updates * num_steps] below 2**63 (so that [tqdm] can take
    the length of the range), [num_updates] is the floor quotient
    [total_timesteps // (num_envs * num_steps)] (the largest q with
    [num_envs * num_steps * q <= total_timesteps] when the divisor is
    positive), it is bound before the loop (both agents are built with
    it), and the run is exactly the startup, the setup and one
    get_action/step/update pass for each index of
    [range(num_updates * num_steps)]: [max(0, num_updates * num_steps)]
    passes, which is [num_updates * num_steps] when that is not negative. *)
Theorem fixed_iteration_count (unix_time : Z) (args : Args) :
  cuda args = true ->
  0 <= seed args < 2 ^ 32 ->
  num_envs args * num_steps args <> 0 ->
  num_updates args * num_steps args < 2 ^ 63 ->
  floordiv (total_timesteps args) (num_envs args * num_steps args)
    = inr (num_updates args)
  /\ (0 < num_envs args * num_steps args ->
      num_envs args * num_steps args * num_updates args
        <= total_timesteps args
        < num_envs args * num_steps args * (num_updates args + 1))
  /\ main unix_time args =
     ((startup unix_time args
       ++ setup unix_time args (num_updates args)
       ++ flat_map iteration (range (num_updates args * num_steps args)))%list,
      Returned tt)
  /\ loop_ran (main unix_time args) (Z.max 0 (num_updates args * num_steps args))
  /\ (0 <= num_updates args * num_steps args ->
      loop_ran (main unix_time args) (num_updates args * num_steps args)).
Proof.
  intros Hc Hs Hd Hn.
  assert (Hr : reaches_loop args = true)
    by (apply reaches_loop_iff; repeat split; assumption || apply Hs).
  pose proof (loop_ran_max unix_time args Hr) as H.
  unfold total_iterations in H.
  assert (Hq : floordiv (total_timesteps args) (num_envs args * num_steps args)
               = inr (num_updates args)).
  { unfold floordiv, num_updates. fold (divisor args).
    destruct (Z.eqb_spec (divisor args) 0); [contradiction | reflexivity]. }
  split; [exact Hq | split; [| split; [| split]]].
  - exact (proj1 (floordiv_floor _ _ _ Hq)).
  - exact (main_completes unix_time args Hr).
  - exact H.
  - intros H0. rewrite Z.max_r in H by assumption. exact H.
Qed.

Lemma fixed_iteration_count_witness :
  cuda default_args = true
  /\ 0 <= seed default_args < 2 ^ 32
  /\ num_envs default_args * num_steps default_args <> 0
  /\ num_updates default_args * num_steps default_args < 2 ^ 63
  /\ loop_ran (main 1700000000 default_args) 41640.
Proof.
  assert (Hc : cuda default_args = true) by reflexivity.
  assert (Hs : 0 <= seed default_args < 2 ^ 32) by (cbn; lia).
  assert (Hd : num_envs default_args * num_steps default_args <> 0)
    by (cbn; lia).
  assert (Hn : num_updates default_args * num_steps default_args < 2 ^ 63)
    by reflexivity.
  split; [exact Hc | split; [exact Hs | split; [exact Hd | split; [exact Hn |]]]].
  exact (proj1 (proj2 (proj2 (proj2
           (fixed_iteration_count 1700000000 default_args Hc Hs Hd Hn))))).
Defined.

(** ** What a run builds and hands out *)

Lemma flat_map_iterations_nil {B : Type} (f : Event -> list B) (l : list Z) :
  (forall i, flat_map f (iteration i) = []) ->
  flat_map f (flat_map iteration l) = [].
Proof.
  intros H. induction l as [| i l IH]; [reflexivity |].
  cbn [flat_map]. rewrite flat_map_app, H, IH. reflexivity.
Qed.

Lemma envs_built_main (unix_time : Z) (args : Args) :
  envs_built (trace (main unix_time args)) = [make_backend args].
Proof.
  unfold envs_built. by_run_shape args.
  rewrite !flat_map_app.
  rewrite flat_map_iterations_nil by reflexivity. reflexivity.
Qed.

Lemma agents_built_main (unix_time : Z) (args : Args) :
  agents_built (trace (main unix_time args)) =
  if reaches_agents args
  then [ (ego, ego_kwargs (make_backend args) (run_name unix_time args)
                 (num_updates args) args);
         (partner, partner_kwargs (make_backend args) (run_name unix_time args)
                 (num_updates args) args) ]
  else [].
Proof.
  unfold agents_built. by_run_shape args.
  rewrite !flat_map_app.
  rewrite flat_map_iterations_nil by reflexivity. reflexivity.
Qed.

Lemma strings_emitted_main (unix_time : Z) (args : Args) :
  strings_emitted (trace (main unix_time args)) =
  "Run saved to:" :: run_name unix_time args ::
  (if reaches_agents args
   then [run_name unix_time args ++ "_ego"; run_name unix_time args ++ "_alt"]
   else []).
Proof.
  unfold strings_emitted. by_run_shape args.
  rewrite !flat_map_app.
  rewrite flat_map_iterations_nil by reflexivity. reflexivity.
Qed.

Lemma filter_iterations_env_call (l : list Z) :
  filter is_env_call (flat_map iteration l) = map (fun i => env_step (action_of i)) l.
Proof.
  induction l as [| i l IH]; [reflexivity |].
  cbn [flat_map map]. rewrite filter_app, IH. reflexivity.
Qed.

(** The calls a run makes on [env], whatever the backend. *)
Lemma env_calls_main (unix_time : Z) (args : Args) :
  filter is_env_call (trace (main unix_time args)) =
  if reaches_agents args
  then env_add_partner_agent partner :: env_reset
         :: (if total_iterations args <=? maxsize
             then map (fun i => env_step (action_of i))
                      (range (total_iterations args))
             else [])
  else [].
Proof.
  by_run_shape args.
  rewrite !filter_app, filter_iterations_env_call.
  reflexivity.
Qed.

(** ** The environment backend *)

(** C2: every run constructs exactly one backend: with the madrona flag,
    [BalanceMadronaTorch(num_envs, 0, False)]; without it, a [SyncVectorEnv]
    over one thunk for each i of [range(num_envs)], the thunk of
    sub-environment i seeding the environment and both its spaces with
    [seed + i].  The calls the rest of the script makes on [env]
    ([add_partner_agent], [reset], [step]) are the same for both backends. *)
Theorem one_backend_built (unix_time : Z) (args : Args) :
  (madrona args = true ->
     envs_built (trace (main unix_time args))
       = [BalanceMadronaTorch (num_envs args) 0 false])
  /\ (madrona args = false ->
      exists env_fns,
        envs_built (trace (main unix_time args)) = [SyncVectorEnv env_fns]
        /\ List.length env_fns = Z.to_nat (num_envs args)
        /\ forall i, 0 <= i < num_envs args ->
             exists th,
               nth_error env_fns (Z.to_nat i) = Some th
               /\ thunk_call th =
                    [ PantheonLine_new;
                      env_seed (seed args + i);
                      action_space_seed (seed args + i);
                      observation_space_seed (seed args + i) ])
  /\ filter is_env_call (trace (main unix_time (with_madrona true args)))
     = filter is_env_call (trace (main unix_time (with_madrona false args))).
Proof.
  split; [| split].
  - intros Hm. rewrite envs_built_main. unfold make_backend. now rewrite Hm.
  - intros Hm. rewrite envs_built_main. unfold make_backend. rewrite Hm.
    eexists. split; [reflexivity |]. split.
    + now rewrite length_map, range_length.
    + intros i Hi. eexists. split.
      * rewrite nth_error_map, (range_nth_error _ _ Hi). reflexivity.
      * reflexivity.
  - rewrite !env_calls_main. reflexivity.
Qed.

Lemma one_backend_built_witness :
  (madrona default_args = true
   /\ envs_built (trace (main 0 default_args)) = [BalanceMadronaTorch 120 0 false])
  /\ (madrona (with_madrona false default_args) = false
      /\ exists env_fns,
           envs_built (trace (main 0 (with_madrona false default_args)))
             = [SyncVectorEnv env_fns]
           /\ List.length env_fns = 120%nat
           /\ exists th,
                nth_error env_fns 5 = Some th
                /\ thunk_call th =
                     [ PantheonLine_new; env_seed 6; action_space_seed 6;
                       observation_space_seed 6 ]).
Proof.
  split.
  - split; [reflexivity |].
    exact (proj1 (one_backend_built 0 default_args) eq_refl).
  - split; [reflexivity |].
    destruct (proj1 (proj2 (one_backend_built 0 (with_madrona false default_args)))
                eq_refl) as (env_fns & Hb & Hl & Hi).
    exists env_fns. split; [exact Hb |]. split; [exact Hl |].
    apply (Hi 5). cbn. lia.
Defined.

(** ** The accelerator flag *)

Lemma outcome_main (unix_time : Z) (args : Args) :
  outcome (main unix_time args) =
  if seed_in_range (seed args) then
    if cuda args then
      if divisor args =? 0 then Raised ZeroDivisionError
      else if total_iterations args <=? maxsize then Returned tt
      else Raised OverflowError
    else Raised AssertionError
  else Raised ValueError.
Proof. by_run_shape args. Qed.

Lemma count_loop_event_stopped (unix_time : Z) (args : Args) :
  reaches_loop args = false ->
  count is_loop_event (trace (main unix_time args)) = 0%nat
  /\ count is_step (trace (main unix_time args)) = 0%nat.
Proof.
  intros H. rewrite main_run. unfold reaches_loop, reaches_agents in H.
  destruct (seed_in_range (seed args)), (cuda args), (divisor args =? 0),
    (total_iterations args <=? maxsize); try discriminate H;
    split; reflexivity.
Qed.

Lemma count_reset_main (unix_time : Z) (args : Args) :
  count is_reset (trace (main unix_time args)) =
  if reaches_agents args then 1%nat else 0%nat.
Proof.
  by_run_shape args.
  rewrite !count_app, count_iterations_none by reflexivity.
  reflexivity.
Qed.

(** C3, as stated, fails: with [--seed -1 --cuda false] the run stops with
    the [ValueError] of [np.random.seed] on line 96, before the assertion
    of line 100 is reached, and with [--seed -1] and the flag true it stops
    there as well instead of proceeding. *)
Lemma cuda_flag_required_fails :
  cuda (with_seed (-1) (with_cuda false default_args)) = false
  /\ outcome (main 0 (with_seed (-1) (with_cuda false default_args)))
     = Raised ValueError
  /\ outcome (main 0 (with_seed (-1) (with_cuda false default_args)))
     <> Raised AssertionError
  /\ cuda (with_seed (-1) default_args) = true
  /\ ~ got_past_assertion (main 0 (with_seed (-1) default_args)).
Proof.
  repeat split; try discriminate.
  intros [H | [H | H]]; vm_compute in H; discriminate.
Qed.

(** C3, amended: for every configuration whose seed [np.random.seed] takes
    (0 to 2**32 - 1): with the cuda flag false the run stops with an
    assertion failure, having built no agent and made no call of the
    training loop (nor reset the environment); with the flag true the run
    gets past the assertion: it goes on to the division of line 102, and
    builds both agents whenever [num_envs * num_steps] is not 0.  For every
    configuration whatever, a run with the flag false builds no agent,
    never resets the environment and makes no call of the loop: no other
    argument lets training run without the flag. *)
Theorem cuda_flag_required (unix_time : Z) (args : Args) :
  (0 <= seed args < 2 ^ 32 -> cuda args = false ->
     outcome (main unix_time args) = Raised AssertionError)
  /\ (cuda args = false ->
      (outcome (main unix_time args) = Raised AssertionError
       \/ outcome (main unix_time args) = Raised ValueError)
      /\ agents_built (trace (main unix_time args)) = []
      /\ count is_reset (trace (main unix_time args)) = 0%nat
      /\ count is_loop_event (trace (main unix_time args)) = 0%nat)
  /\ (0 <= seed args < 2 ^ 32 -> cuda args = true ->
      got_past_assertion (main unix_time args)
      /\ outcome (main unix_time args) <> Raised AssertionError
      /\ (num_envs args * num_steps args <> 0 ->
          List.length (agents_built (trace (main unix_time args))) = 2%nat)).
Proof.
  split; [| split].
  - intros Hs Hc. rewrite outcome_main, Hc.
    unfold seed_in_range.
    destruct (Z.leb_spec 0 (seed args)); [| lia].
    destruct (Z.ltb_spec (seed args) (2 ^ 32)); [reflexivity | lia].
  - intros Hc.
    assert (Ha : reaches_agents args = false)
      by (unfold reaches_agents; rewrite Hc, Bool.andb_false_r; reflexivity).
    assert (Hl : reaches_loop args = false)
      by (unfold reaches_loop; rewrite Ha; reflexivity).
    rewrite agents_built_main, count_reset_main, Ha, outcome_main, Hc.
    split; [destruct (seed_in_range (seed args)); auto |].
    repeat split.
    exact (proj1 (count_loop_event_stopped unix_time args Hl)).
  - intros Hs Hc.
    assert (Hr : seed_in_range (seed args) = true)
      by (unfold seed_in_range; apply Bool.andb_true_iff; split;
          [apply Z.leb_le | apply Z.ltb_lt]; lia).
    unfold got_past_assertion.
    rewrite agents_built_main, outcome_main. unfold reaches_agents.
    fold (divisor args). rewrite Hr, Hc.
    destruct (Z.eqb_spec (divisor args) 0) as [E | E];
      [| destruct (total_iterations args <=? maxsize)];
      (split; [tauto | split; [discriminate |]]);
      intros H; [contradiction | reflexivity | reflexivity].
Qed.

Lemma cuda_flag_required_witness :
  (0 <= seed (with_cuda false default_args) < 2 ^ 32
   /\ cuda (with_cuda false default_args) = false
   /\ outcome (main 0 (with_cuda false default_args)) = Raised AssertionError)
  /\ (0 <= seed default_args < 2 ^ 32
      /\ cuda default_args = true
      /\ got_past_assertion (main 0 default_args)).
Proof.
  assert (Hs : 0 <= seed (with_cuda false default_args) < 2 ^ 32)
    by (cbn; lia).
  assert (Hs' : 0 <= seed default_args < 2 ^ 32) by (cbn; lia).
  split; (split; [assumption | split; [reflexivity |]]).
  - exact (proj1 (cuda_flag_required 0 (with_cuda false default_args))
             Hs eq_refl).
  - exact (proj1 (proj2 (proj2 (cuda_flag_required 0 default_args))
                    Hs' eq_refl)).
Defined.

(** ** The run name *)

(** [str] writes the decimal numeral that [int] reads back. *)
Lemma str_round_trip (n : Z) : int_of_str (str n) = Some n.
Proof.
  unfold int_of_str, str. rewrite NilZero.isi.
  - cbn. now rewrite DecimalZ.of_to.
  - destruct n as [| p | p]; cbn; try discriminate.
    intros [= E]. exact (DecimalPos.Unsigned.to_uint_nonnil p E).
  - destruct n as [| p | p]; cbn; try discriminate.
    intros [= E]. exact (DecimalPos.Unsigned.to_uint_nonnil p E).
Qed.

Example run_name_default :
  run_name 1700000000 default_args = "Balance_Train__1__1700000000__120_madrona"
  /\ run_name 1700000000 (with_madrona false default_args)
     = "Balance_Train__1__1700000000__120_numpy".
Proof. split; vm_compute; reflexivity. Qed.

Lemma all_digits_uint (d : Decimal.uint) :
  all_digits (NilEmpty.string_of_uint d) = true.
Proof. induction d; cbn; trivial. Qed.

(** The numeral of a positive number does not start with the digit 0. *)
Lemma to_uint_no_leading_zero (p : positive) (d : Decimal.uint) :
  Pos.to_uint p <> Decimal.D0 d.
Proof.
  intros E.
  pose proof (DecimalPos.Unsigned.to_of (Pos.to_uint p)) as H.
  rewrite DecimalPos.Unsigned.of_to in H. cbn [N.to_uint] in H.
  rewrite E in H. unfold Decimal.unorm in H.
  rewrite DecimalFacts.nzhead_D0 in H.
  destruct (Decimal.nzhead d) eqn:En;
    try (symmetry in H; revert H; rewrite <- En;
         apply DecimalFacts.nzhead_nonzero).
  injection H as H. subst d.
  exact (DecimalPos.Unsigned.to_uint_nonzero p E).
Qed.

Lemma is_magnitude_to_uint (p : positive) :
  is_magnitude (NilZero.string_of_uint (Pos.to_uint p)) = true
  /\ String.eqb (NilZero.string_of_uint (Pos.to_uint p)) "0" = false.
Proof.
  pose proof (to_uint_no_leading_zero p) as Hz.
  pose proof (DecimalPos.Unsigned.to_uint_nonnil p) as Hn.
  unfold NilZero.string_of_uint.
  destruct (Pos.to_uint p) as [| d | d | d | d | d | d | d | d | d | d];
    try contradiction; try (destruct (Hz d eq_refl));
    cbn [NilEmpty.string_of_uint is_magnitude all_digits];
    rewrite all_digits_uint; split; reflexivity.
Qed.

(** [str] writes decimal numerals. *)
Lemma str_decimal (n : Z) : decimal_of n (str n).
Proof.
  split; [| apply str_round_trip].
  unfold str, NilZero.string_of_int.
  destruct n as [| p | p]; [reflexivity | |]; cbn [Z.to_int];
    destruct (is_magnitude_to_uint p) as (Hm & Hz).
  - unfold is_numeral.
    destruct (NilZero.string_of_uint (Pos.to_uint p)) as [| c r] eqn:E;
      [discriminate Hm |].
    destruct (Ascii.eqb_spec c "-") as [-> | _]; [discriminate Hm | exact Hm].
  - cbn [is_numeral]. rewrite Ascii.eqb_refl, Hm, Hz. reflexivity.
Qed.

Example is_numeral_examples :
  is_numeral "120" = true /\ is_numeral "0" = true /\ is_numeral "-7" = true
  /\ is_numeral "" = false /\ is_numeral "007" = false
  /\ is_numeral "-0" = false /\ is_numeral "-" = false
  /\ is_numeral "+7" = false /\ is_numeral "1_0" = false.
Proof. repeat split. Qed.

Lemma string_of_uint_empty (u : Decimal.uint) :
  NilEmpty.string_of_uint u = "" -> u = Decimal.Nil.
Proof. destruct u; cbn; trivial; discriminate. Qed.

Lemma is_magnitude_normal (u : Decimal.uint) :
  u <> Decimal.Nil ->
  is_magnitude (NilEmpty.string_of_uint u) = true ->
  Decimal.unorm u = u
  /\ (String.eqb (NilEmpty.string_of_uint u) "0" = false ->
      Decimal.nzhead u = u /\ exists c r, NilEmpty.string_of_uint u = String c r
                                           /\ Ascii.eqb c "-" = false).
Proof.
  intros Hn Hm.
  destruct u as [| u | u | u | u | u | u | u | u | u | u];
    try contradiction;
    try (split; [reflexivity |]; intros _; split; [reflexivity |];
         do 2 eexists; split; reflexivity).
  cbn [NilEmpty.string_of_uint is_magnitude] in Hm.
  apply Bool.andb_true_iff in Hm. destruct Hm as (_ & Hm).
  rewrite Ascii.eqb_refl in Hm. cbn [negb orb] in Hm.
  apply String.eqb_eq in Hm. apply string_of_uint_empty in Hm. subst u.
  split; [reflexivity |]. cbn. discriminate.
Qed.

(** A string is the decimal numeral of [n] only if it is what [str]
    writes: the syntax and the reading leave no other choice. *)
Lemma decimal_of_unique (n : Z) (s : string) : decimal_of n s -> s = str n.
Proof.
  intros (Hsyn & Hread). unfold int_of_str in Hread.
  destruct (NilZero.int_of_string s) as [d |] eqn:E; [| discriminate].
  cbn in Hread. injection Hread as <-.
  pose proof (NilZero.sis _ _ E) as Hs. subst s.
  unfold str. rewrite DecimalZ.to_of. f_equal.
  destruct d as [u | u]; cbn [NilZero.string_of_int] in Hsyn.
  - assert (Hu : u <> Decimal.Nil).
    { intros ->. apply (NilZero.uint_of_string_nonnil
                          (NilZero.string_of_int (Decimal.Pos Decimal.Nil))).
      cbn in E |- *. injection E as E. discriminate. }
    unfold NilZero.string_of_uint in Hsyn.
    assert (Hsyn' : is_numeral (NilEmpty.string_of_uint u) = true)
      by (destruct u; try contradiction; exact Hsyn).
    assert (Hm : is_magnitude (NilEmpty.string_of_uint u) = true).
    { unfold is_numeral in Hsyn'.
      destruct (NilEmpty.string_of_uint u) as [| c r] eqn:Eu; [discriminate |].
      destruct u; try contradiction; cbn in Eu; injection Eu as <- <-;
        exact Hsyn'. }
    cbn [Decimal.norm]. f_equal. symmetry.
    exact (proj1 (is_magnitude_normal u Hu Hm)).
  - assert (Hu : u <> Decimal.Nil).
    { intros ->. cbn in E. discriminate. }
    unfold NilZero.string_of_uint in Hsyn.
    assert (Hsyn' : is_magnitude (NilEmpty.string_of_uint u)
                    && negb (String.eqb (NilEmpty.string_of_uint u) "0") = true)
      by (destruct u; try contradiction; exact Hsyn).
    apply Bool.andb_true_iff in Hsyn'. destruct Hsyn' as (Hm & Hz).
    apply Bool.negb_true_iff in Hz.
    destruct (is_magnitude_normal u Hu Hm) as (_ & H).
    destruct (H Hz) as (Hnz & _).
    cbn [Decimal.norm]. rewrite Hnz.
    destruct u; try contradiction; reflexivity.
Qed.

(** C4: for every configuration the run name is the template
    [Balance_Train__{seed}__{unix_time}__{num_envs}_{backend_name}] filled
    with the decimal numerals of the seed, of the unix time and of num_envs
    (each a run of digits without a leading zero, with a minus sign when
    negative, that reads in base ten as the number) and with [madrona] or
    [numpy] by the madrona flag; it is the first thing the script prints,
    whether or not the run stops later, and the strings the script hands out
    are the label of that print, the run name, and (in the runs that get to
    build the agents) the run name followed by [_ego] and by [_alt]: nothing
    else. *)
Theorem run_name_format (unix_time : Z) (args : Args) :
  (exists seed_numeral time_numeral envs_numeral,
     decimal_of (seed args) seed_numeral
     /\ decimal_of unix_time time_numeral
     /\ decimal_of (num_envs args) envs_numeral
     /\ run_name unix_time args
        = spec_run_name seed_numeral time_numeral envs_numeral
            (spec_backend_name (madrona args)))
  /\ hd_error (trace (main unix_time args))
     = Some (print ["Run saved to:"; run_name unix_time args])
  /\ strings_emitted (trace (main unix_time args))
     = "Run saved to:" :: run_name unix_time args ::
       (if reaches_agents args
        then [run_name unix_time args ++ "_ego";
              run_name unix_time args ++ "_alt"]
        else [])
  /\ map (fun p => kw_name (snd p)) (agents_built (trace (main unix_time args)))
     = (if reaches_agents args
        then [run_name unix_time args ++ "_ego";
              run_name unix_time args ++ "_alt"]
        else []).
Proof.
  split; [| split; [| split]].
  - exists (str (seed args)), (str unix_time), (str (num_envs args)).
    repeat split; try apply str_decimal.
    unfold run_name, spec_run_name, spec_backend_name.
    destruct (madrona args); reflexivity.
  - rewrite main_run.
    destruct (seed_in_range (seed args)), (cuda args), (divisor args =? 0),
      (total_iterations args <=? maxsize); reflexivity.
  - apply strings_emitted_main.
  - rewrite agents_built_main.
    destruct (reaches_agents args); reflexivity.
Qed.

(** ** Reset and step *)

Lemma reset_then_steps_iterations (l : list Z) :
  reset_then_steps true (flat_map iteration l) = true.
Proof. induction l as [| i l IH]; [reflexivity | exact IH]. Qed.

Lemma reset_order_main (unix_time : Z) (args : Args) :
  reset_then_steps false (trace (main unix_time args)) = true.
Proof.
  by_run_shape args.
  exact (reset_then_steps_iterations _).
Qed.

Lemma partner_before_reset_main (unix_time : Z) (args : Args) :
  partner_before_reset (trace (main unix_time args)) = reaches_agents args.
Proof. by_run_shape args. Qed.

(** C5, as stated, fails: a run with [--cuda false] stops at the assertion
    of line 100, a run with [--num-steps 0] at the division of line 102 and
    a run with [--seed -1] in [np.random.seed] on line 96, all before line
    151: [env.reset()] is called zero times, not once. *)
Lemma reset_exactly_once_fails :
  ~ reset_exactly_once (main 0 (with_cuda false default_args))
  /\ count is_reset (trace (main 0 (with_cuda false default_args))) = 0%nat
  /\ ~ reset_exactly_once (main 0 (with_sizes 5000000 120 0 default_args))
  /\ count is_reset (trace (main 0 (with_sizes 5000000 120 0 default_args))) = 0%nat
  /\ ~ reset_exactly_once (main 0 (with_seed (-1) default_args))
  /\ count is_reset (trace (main 0 (with_seed (-1) default_args))) = 0%nat.
Proof.
  repeat split; try (intros (H & _); vm_compute in H; discriminate).
Qed.

(** C5, amended: in every run that gets past the seeding, the assertion and
    the division (a seed that [np.random.seed] takes, 0 to 2**32 - 1, the
    cuda flag true, [num_envs * num_steps] not 0), [env.reset()] is called
    exactly once, after the partner is registered and before any
    [env.step], and never again; in every run whatever, it is called at most
    once, no [env.step] comes before it and no [env.reset] after it. *)
Theorem reset_once_before_steps (unix_time : Z) (args : Args) :
  (cuda args = true ->
   0 <= seed args < 2 ^ 32 ->
   num_envs args * num_steps args <> 0 ->
   reset_exactly_once (main unix_time args))
  /\ (count is_reset (trace (main unix_time args)) <= 1)%nat
  /\ reset_then_steps false (trace (main unix_time args)) = true.
Proof.
  split; [| split].
  - intros Hc Hs Hd. unfold reset_exactly_once.
    rewrite count_reset_main, reset_order_main, partner_before_reset_main.
    rewrite (proj2 (reaches_agents_iff args) (conj Hc (conj Hs Hd))).
    repeat split.
  - rewrite count_reset_main. destruct (reaches_agents args); lia.
  - apply reset_order_main.
Qed.

Lemma reset_once_before_steps_witness :
  cuda default_args = true
  /\ 0 <= seed default_args < 2 ^ 32
  /\ num_envs default_args * num_steps default_args <> 0
  /\ reset_exactly_once (main 1700000000 default_args).
Proof.
  assert (Hc : cuda default_args = true) by reflexivity.
  assert (Hs : 0 <= seed default_args < 2 ^ 32) by (cbn; lia).
  assert (Hd : num_envs default_args * num_steps default_args <> 0)
    by (cbn; lia).
  split; [exact Hc | split; [exact Hs | split; [exact Hd |]]].
  exact (proj1 (reset_once_before_steps 1700000000 default_args) Hc Hs Hd).
Defined.

(** ** Who is updated by the script *)

Lemma count_update_of_partner (unix_time : Z) (args : Args) :
  count (is_update_of partner) (trace (main unix_time args)) = 0%nat.
Proof.
  by_run_shape args.
  rewrite !count_app, count_iterations_none by reflexivity.
  reflexivity.
Qed.

Lemma count_update_of_ego (unix_time : Z) (args : Args) :
  count (is_update_of ego) (trace (main unix_time args))
  = count is_update (trace (main unix_time args)).
Proof.
  by_run_shape args.
  rewrite !count_app, !count_iterations by reflexivity.
  reflexivity.
Qed.

(** Among the calls the script itself makes, [update] is called on the ego
    agent only: in every run no statement of the script calls [update] on
    the partner, although in every run that gets into the loop the partner
    was built by [CleanPPOAgent(...)] like the ego agent and registered
    with [env.add_partner_agent], and the ego agent is updated once per
    pass.  What [env.step] does with the registered partner is inside the
    environment and is no part of this statement. *)
Theorem only_ego_updated (unix_time : Z) (args : Args) :
  count (is_update_of partner) (trace (main unix_time args)) = 0%nat
  /\ count (is_update_of ego) (trace (main unix_time args))
     = count is_update (trace (main unix_time args))
  /\ (cuda args = true ->
      0 <= seed args < 2 ^ 32 ->
      num_envs args * num_steps args <> 0 ->
      num_updates args * num_steps args < 2 ^ 63 ->
      In (partner, partner_kwargs (make_backend args) (run_name unix_time args)
                     (num_updates args) args)
         (agents_built (trace (main unix_time args)))
      /\ In (env_add_partner_agent partner) (trace (main unix_time args))
      /\ count (is_update_of ego) (trace (main unix_time args))
         = Z.to_nat (num_updates args * num_steps args)).
Proof.
  split; [apply count_update_of_partner | split; [apply count_update_of_ego |]].
  intros Hc Hs Hd Hn.
  assert (Hr : reaches_loop args = true)
    by (apply reaches_loop_iff; repeat split; assumption || apply Hs).
  split; [| split].
  - rewrite agents_built_main.
    rewrite (proj2 (reaches_agents_iff args) (conj Hc (conj Hs Hd))).
    cbn. right. left. reflexivity.
  - rewrite (main_completes _ _ Hr). cbn. do 8 right. left. reflexivity.
  - rewrite count_update_of_ego.
    exact (proj2 (proj2 (loop_counts unix_time args Hr))).
Qed.

Lemma only_ego_updated_witness :
  cuda (with_sizes 3 1 2 default_args) = true
  /\ In (env_add_partner_agent partner)
        (trace (main 0 (with_sizes 3 1 2 default_args)))
  /\ count (is_update_of ego) (trace (main 0 (with_sizes 3 1 2 default_args)))
     = 2%nat
  /\ count (is_update_of partner) (trace (main 0 (with_sizes 3 1 2 default_args)))
     = 0%nat.
Proof.
  assert (Hc : cuda (with_sizes 3 1 2 default_args) = true) by reflexivity.
  assert (Hs : 0 <= seed (with_sizes 3 1 2 default_args) < 2 ^ 32)
    by (cbn; lia).
  assert (Hd : num_envs (with_sizes 3 1 2 default_args)
               * num_steps (with_sizes 3 1 2 default_args) <> 0)
    by (cbn; lia).
  assert (Hn : num_updates (with_sizes 3 1 2 default_args)
               * num_steps (with_sizes 3 1 2 default_args) < 2 ^ 63)
    by reflexivity.
  pose proof (only_ego_updated 0 (with_sizes 3 1 2 default_args)) as (Hp & _ & H).
  destruct (H Hc Hs Hd Hn) as (_ & Hreg & Hcount).
  split; [exact Hc | split; [exact Hreg | split]].
  - exact Hcount.
  - exact Hp.
Defined.

(** ** The device of the agents *)

(** C9, as stated, fails: with [--cuda false] the run stops at the
    assertion of line 100, and with [--seed -1] in [np.random.seed] on line
    96, before either agent is built: for these configurations no agent is
    constructed at all, on any device. *)
Lemma agents_on_cpu_fails :
  ~ both_agents_on_cpu (main 0 (with_cuda false default_args))
  /\ agents_built (trace (main 0 (with_cuda false default_args))) = []
  /\ ~ both_agents_on_cpu (main 0 (with_seed (-1) default_args))
  /\ agents_built (trace (main 0 (with_seed (-1) default_args))) = [].
Proof.
  repeat split; try (intros (k1 & k2 & H & _); vm_compute in H; discriminate).
Qed.

(** C9, amended: for every configuration whose run gets to line 104 (the
    cuda flag true, a seed that [np.random.seed] takes, 0 to 2**32 - 1, and
    [num_envs * num_steps] not 0), both the ego agent and the partner agent
    are constructed with [torch.device("cpu")]; for every configuration
    whatever, each agent the run constructs is constructed with that
    device, and the keyword arguments of both agents carry it whatever the
    value of the cuda flag: no agent is ever placed on an accelerator
    device by the script. *)
Theorem agents_on_cpu (unix_time : Z) (args : Args) :
  (cuda args = true ->
   0 <= seed args < 2 ^ 32 ->
   num_envs args * num_steps args <> 0 ->
   both_agents_on_cpu (main unix_time args))
  /\ Forall (fun p => kw_device (snd p) = torch_device "cpu"
                      /\ device_type (kw_device (snd p)) = "cpu")
            (agents_built (trace (main unix_time args)))
  /\ (forall b env name n,
        kw_device (ego_kwargs env name n (with_cuda b args))
          = torch_device "cpu"
        /\ kw_device (partner_kwargs env name n (with_cuda b args))
           = torch_device "cpu").
Proof.
  split; [| split].
  - intros Hc Hs Hd. unfold both_agents_on_cpu.
    rewrite agents_built_main.
    rewrite (proj2 (reaches_agents_iff args) (conj Hc (conj Hs Hd))).
    do 2 eexists. repeat split.
  - rewrite agents_built_main.
    destruct (reaches_agents args); repeat constructor.
  - intros b env name n. split; reflexivity.
Qed.

Lemma agents_on_cpu_witness :
  cuda default_args = true
  /\ 0 <= seed default_args < 2 ^ 32
  /\ num_envs default_args * num_steps default_args <> 0
  /\ both_agents_on_cpu (main 0 default_args).
Proof.
  assert (Hc : cuda default_args = true) by reflexivity.
  assert (Hs : 0 <= seed default_args < 2 ^ 32) by (cbn; lia).
  assert (Hd : num_envs default_args * num_steps default_args <> 0)
    by (cbn; lia).
  split; [exact Hc | split; [exact Hs | split; [exact Hd |]]].
  exact (proj1 (agents_on_cpu 0 default_args) Hc Hs Hd).
Defined.

(** ** Fewer timesteps than one rollout *)

(** C10, as stated, fails: with [--total-timesteps -1 --num-envs 1
    --num-steps 1] the floor division binds [num_updates] to -1, not 0 (the
    agents are built with -1); with [--cuda false --total-timesteps 100]
    the run stops at the assertion, before any agent is built, instead of
    completing; and with [--seed -1 --total-timesteps 100] it stops in
    [np.random.seed] on line 96. *)
Lemma completes_without_training_fails :
  (total_timesteps (with_sizes (-1) 1 1 default_args)
     < num_envs (with_sizes (-1) 1 1 default_args)
       * num_steps (with_sizes (-1) 1 1 default_args)
   /\ ~ completes_without_training 0 (with_sizes (-1) 1 1 default_args)
   /\ floordiv (-1) (1 * 1) = inr (-1)
   /\ map (fun p => kw_num_updates (snd p))
          (agents_built (trace (main 0 (with_sizes (-1) 1 1 default_args))))
      = [-1; -1])
  /\ (total_timesteps (with_cuda false (with_sizes 100 120 60 default_args))
        < num_envs (with_cuda false (with_sizes 100 120 60 default_args))
          * num_steps (with_cuda false (with_sizes 100 120 60 default_args))
      /\ ~ completes_without_training 0
             (with_cuda false (with_sizes 100 120 60 default_args))
      /\ main 0 (with_cuda false (with_sizes 100 120 60 default_args))
         = (startup 0 (with_cuda false (with_sizes 100 120 60 default_args)),
            Raised AssertionError))
  /\ (total_timesteps (with_seed (-1) (with_sizes 100 120 60 default_args))
        < num_envs (with_seed (-1) (with_sizes 100 120 60 default_args))
          * num_steps (with_seed (-1) (with_sizes 100 120 60 default_args))
      /\ ~ completes_without_training 0
             (with_seed (-1) (with_sizes 100 120 60 default_args))
      /\ outcome (main 0 (with_seed (-1) (with_sizes 100 120 60 default_args)))
         = Raised ValueError).
Proof.
  split; [| split]; (split; [reflexivity | split; [| repeat split]]).
  - intros (H & _). vm_compute in H. discriminate.
  - intros (_ & H). vm_compute in H. discriminate.
  - intros (_ & H). vm_compute in H. discriminate.
Qed.

(** C10, amended: for every configuration with the cuda flag true, a seed
    that [np.random.seed] takes (0 to 2**32 - 1) and
    [0 <= total_timesteps < num_envs * num_steps], the floor division binds
    [num_updates] to 0, the backend and both agents are built, the partner
    is registered, the environment is reset, the loop body runs zero times
    (no [get_action], [env.step] or [update] call) and the run returns. *)
Theorem no_training_below_one_rollout (unix_time : Z) (args : Args) :
  cuda args = true ->
  0 <= seed args < 2 ^ 32 ->
  0 <= total_timesteps args < num_envs args * num_steps args ->
  completes_without_training unix_time args
  /\ count is_loop_event (trace (main unix_time args)) = 0%nat
  /\ loop_ran (main unix_time args) 0.
Proof.
  intros Hc Hs Hlt. fold (divisor args) in Hlt.
  assert (Hd : divisor args <> 0) by lia.
  assert (Hu : num_updates args = 0)
    by (unfold num_updates; apply Z.div_small; exact Hlt).
  assert (Hr : reaches_loop args = true).
  { apply reaches_loop_iff. unfold total_iterations. rewrite Hu.
    repeat split; try assumption; try apply Hs; try reflexivity. }
  assert (Hmain : main unix_time args =
                  ((startup unix_time args ++ setup unix_time args 0)%list,
                   Returned tt)).
  { rewrite (main_completes _ _ Hr).
    unfold total_iterations. rewrite Hu. cbn [Z.mul range Z.to_nat seq map flat_map].
    now rewrite app_nil_r. }
  split; [| split].
  - split; [| exact Hmain].
    unfold floordiv. fold (num_updates args). rewrite Hu.
    destruct (Z.eqb_spec (divisor args) 0); [contradiction | reflexivity].
  - rewrite Hmain. reflexivity.
  - pose proof (loop_ran_max unix_time args Hr) as H.
    unfold total_iterations in H. rewrite Hu in H. exact H.
Qed.

Lemma no_training_below_one_rollout_witness :
  cuda (with_sizes 100 120 60 default_args) = true
  /\ 0 <= seed (with_sizes 100 120 60 default_args) < 2 ^ 32
  /\ 0 <= 100 < 120 * 60
  /\ completes_without_training 0 (with_sizes 100 120 60 default_args).
Proof.
  assert (Hc : cuda (with_sizes 100 120 60 default_args) = true) by reflexivity.
  assert (Hs : 0 <= seed (with_sizes 100 120 60 default_args) < 2 ^ 32)
    by (cbn; lia).
  assert (Hlt : 0 <= 100 < 120 * 60) by lia.
  split; [exact Hc | split; [exact Hs | split; [exact Hlt |]]].
  exact (proj1 (no_training_below_one_rollout 0 (with_sizes 100 120 60 default_args)
                  Hc Hs Hlt)).
Defined.

(** * Properties of the advantage estimator *)

Section GaeRoundTrip.

Import Gae.
#[local] Open Scope Q_scope.

(** One step of the recursion on a constant-value, zero-reward buffer. *)
Lemma advantages_constant_cons (gam lam v : Q) (d : bool) (ds : list bool) :
  advantages gam lam (constant_buffer v (d :: ds)) v =
  (0 + gam * nonterminal d * v - v
   + gam * lam * nonterminal d
     * hd 0 (advantages gam lam (constant_buffer v ds) v))
  :: advantages gam lam (constant_buffer v ds) v.
Proof. destruct ds; reflexivity. Qed.

Lemma returns_constant (gam lam v : Q) (ds : list bool) :
  returns gam lam (constant_buffer v ds) v =
  map (fun a => a + v) (advantages gam lam (constant_buffer v ds) v).
Proof.
  unfold returns. induction ds as [| d ds IH]; [reflexivity |].
  rewrite advantages_constant_cons.
  change (constant_buffer v (d :: ds))
    with ({| reward := 0; value := v; done := d |} :: constant_buffer v ds).
  cbn [combine map fst snd value]. now rewrite IH.
Qed.

Lemma hd_zero (l : list Q) : Forall (fun a => a == 0) l -> hd 0 l == 0.
Proof. intros [| a l' Ha _]; [reflexivity | exact Ha]. Qed.

Lemma advantages_zero_value (v : Q) (ds : list bool) :
  v == 0 ->
  Forall (fun a => a == 0)
         (advantages spec_gamma spec_lambda (constant_buffer v ds) v).
Proof.
  intros Hv. induction ds as [| d ds IH]; [constructor |].
  rewrite advantages_constant_cons. constructor; [| exact IH].
  pose proof (hd_zero _ IH) as Hh.
  set (h := hd 0 _) in *.
  unfold spec_gamma, spec_lambda. destruct d; unfold nonterminal; lra.
Qed.

Lemma value_zero_of_advantages (v : Q) (d : bool) (ds : list bool) :
  Forall (fun a => a == 0)
         (advantages spec_gamma spec_lambda (constant_buffer v (d :: ds)) v) ->
  v == 0.
Proof.
  rewrite advantages_constant_cons. intros H.
  inversion H as [| a l Ha Hl]; subst.
  pose proof (hd_zero _ Hl) as Hh.
  set (h := hd 0 _) in *.
  unfold spec_gamma, spec_lambda in Ha.
  destruct d; unfold nonterminal in Ha; lra.
Qed.

Lemma returns_are_values_iff (v : Q) (ds : list bool) :
  Forall (fun r => r == v)
         (returns spec_gamma spec_lambda (constant_buffer v ds) v)
  <-> Forall (fun a => a == 0)
         (advantages spec_gamma spec_lambda (constant_buffer v ds) v).
Proof.
  rewrite returns_constant, Forall_map.
  split; apply Forall_impl; intros a Ha; lra.
Qed.

(** C8, as stated, fails: on a three-step buffer of zero rewards, no done
    flag and value estimate 1 at every step and at the bootstrap, the
    recursion gives the advantages -0.0282504025, -0.019405 and -0.01 and
    the returns 0.9717495975, 0.980595 and 0.99: neither is within 1e-4 (nor
    within 1e-3) of 0 and of 1. *)
Lemma gae_round_trip_fails :
  Forall2 Qeq
    (advantages spec_gamma spec_lambda (constant_buffer 1 [false; false; false]) 1)
    [ - (282504025 # 10000000000); - (19405 # 1000000); - (1 # 100) ]
  /\ Forall2 Qeq
    (returns spec_gamma spec_lambda (constant_buffer 1 [false; false; false]) 1)
    [ 9717495975 # 10000000000; 980595 # 1000000; 99 # 100 ]
  /\ round_trip_holds (1 # 10000) 1 [false; false; false] = false
  /\ round_trip_holds (1 # 1000) 1 [false; false; false] = false.
Proof.
  repeat split; try (vm_compute; reflexivity);
    repeat constructor; vm_compute; reflexivity.
Qed.

(** C8, amended: for every non-empty rollout buffer of all-zero rewards
    with gamma 0.99, lambda 0.95 and a constant value estimate V at every
    step and at the bootstrap, whatever the done flags, the advantage is 0
    at every step exactly when V is 0, and the return is V at every step
    exactly when V is 0 (then both hold exactly, with no tolerance). *)
Theorem gae_round_trip_iff_zero_value (v : Q) (dones : list bool) :
  dones <> [] ->
  (Forall (fun a => a == 0)
          (advantages spec_gamma spec_lambda (constant_buffer v dones) v)
   <-> v == 0)
  /\ (Forall (fun r => r == v)
             (returns spec_gamma spec_lambda (constant_buffer v dones) v)
      <-> v == 0).
Proof.
  intros Hne. destruct dones as [| d ds]; [contradiction |].
  assert (H : Forall (fun a => a == 0)
                (advantages spec_gamma spec_lambda (constant_buffer v (d :: ds)) v)
              <-> v == 0).
  { split; [apply value_zero_of_advantages | apply advantages_zero_value]. }
  split; [exact H |].
  rewrite returns_are_values_iff. exact H.
Qed.

Lemma gae_round_trip_iff_zero_value_witness :
  [false; true; false] <> []
  /\ Forall (fun a => a == 0)
       (advantages spec_gamma spec_lambda
          (constant_buffer 0 [false; true; false]) 0)
  /\ Forall (fun r => r == 0)
       (returns spec_gamma spec_lambda
          (constant_buffer 0 [false; true; false]) 0).
Proof.
  assert (Hne : [false; true; false] <> []) by discriminate.
  split; [exact Hne |].
  destruct (gae_round_trip_iff_zero_value 0 [false; true; false] Hne) as (Ha & Hr).
  split; [apply Ha | apply Hr]; reflexivity.
Defined.

End GaeRoundTrip.

(** * Further properties of the driver *)

(** ** The training budget *)

Lemma divisor_pos (args : Args) :
  0 < num_envs args -> 0 < num_steps args -> 0 < divisor args.
Proof. unfold divisor. nia. Qed.

Lemma steps_of_run (unix_time : Z) (args : Args) :
  reaches_loop args = true ->
  Z.of_nat (count is_step (trace (main unix_time args)))
  = Z.max 0 (total_iterations args).
Proof.
  intros H.
  rewrite (proj1 (proj2 (loop_counts unix_time args H))). lia.
Qed.

(** With positive sizes, a budget below 2**63 keeps the range within what
    [tqdm] can take the length of. *)
Lemma reaches_loop_budget (args : Args) :
  cuda args = true -> 0 <= seed args < 2 ^ 32 ->
  0 < num_envs args -> 0 < num_steps args ->
  total_timesteps args < 2 ^ 63 ->
  reaches_loop args = true.
Proof.
  intros Hc Hs He Hn Ht.
  pose proof (divisor_pos args He Hn) as Hd.
  apply reaches_loop_iff. repeat split; try assumption; try apply Hs; [lia |].
  unfold total_iterations, num_updates.
  pose proof (Z.mul_div_le (total_timesteps args) (divisor args) Hd) as Hle.
  unfold divisor in *. nia.
Qed.

(** The environment transitions a run consumes never exceed the budget:
    with the cuda flag true, a seed that [np.random.seed] takes (0 to
    2**32 - 1), positive [num_envs] and [num_steps] and a [total_timesteps]
    that is not negative and below 2**63, the run makes
    [(total_timesteps // (num_envs * num_steps)) * num_steps] calls of
    [env.step], whole rollouts only, so [num_envs] times that number is at
    most [total_timesteps] and falls short of it by less than one rollout
    of [num_envs * num_steps] transitions. *)
Theorem training_budget (unix_time : Z) (args : Args) :
  cuda args = true ->
  0 <= seed args < 2 ^ 32 ->
  0 < num_envs args -> 0 < num_steps args ->
  0 <= total_timesteps args < 2 ^ 63 ->
  Z.of_nat (count is_step (trace (main unix_time args)))
    = total_timesteps args / (num_envs args * num_steps args) * num_steps args
  /\ Z.of_nat (count is_step (trace (main unix_time args))) * num_envs args
     <= total_timesteps args
  /\ total_timesteps args
     < Z.of_nat (count is_step (trace (main unix_time args))) * num_envs args
       + num_envs args * num_steps args.
Proof.
  intros Hc Hseed He Hs Ht.
  pose proof (divisor_pos args He Hs) as Hd.
  rewrite (steps_of_run unix_time args
             (reaches_loop_budget args Hc Hseed He Hs (proj2 Ht))).
  unfold total_iterations, num_updates.
  fold (divisor args).
  pose proof (Z.div_pos (total_timesteps args) (divisor args) (proj1 Ht) Hd) as Hq.
  pose proof (Z.mul_div_le (total_timesteps args) (divisor args) Hd) as Hle.
  pose proof (Z.mul_succ_div_gt (total_timesteps args) (divisor args) Hd) as Hgt.
  rewrite Z.max_r by nia.
  unfold divisor in *. repeat split; nia.
Qed.

Lemma training_budget_witness :
  cuda (with_sizes 7 1 2 default_args) = true
  /\ 0 <= seed (with_sizes 7 1 2 default_args) < 2 ^ 32
  /\ 0 <= total_timesteps (with_sizes 7 1 2 default_args) < 2 ^ 63
  /\ Z.of_nat (count is_step (trace (main 0 (with_sizes 7 1 2 default_args))))
     = 6.
Proof.
  assert (Hs : 0 <= seed (with_sizes 7 1 2 default_args) < 2 ^ 32)
    by (cbn; lia).
  assert (Ht : 0 <= total_timesteps (with_sizes 7 1 2 default_args) < 2 ^ 63)
    by (cbn; lia).
  split; [reflexivity | split; [exact Hs | split; [exact Ht |]]].
  exact (proj1 (training_budget 0 (with_sizes 7 1 2 default_args)
                  eq_refl Hs eq_refl eq_refl Ht)).
Defined.

(** With the cuda flag true, a seed that [np.random.seed] takes (0 to
    2**32 - 1), positive [num_envs] and [num_steps] and a budget below
    2**63, a run makes at least one [env.step] call exactly when one whole
    rollout fits the budget, [num_envs * num_steps <= total_timesteps]. *)
Theorem trains_iff_rollout_fits (unix_time : Z) (args : Args) :
  cuda args = true ->
  0 <= seed args < 2 ^ 32 ->
  0 < num_envs args -> 0 < num_steps args ->
  total_timesteps args < 2 ^ 63 ->
  (0 < Z.of_nat (count is_step (trace (main unix_time args)))
   <-> num_envs args * num_steps args <= total_timesteps args).
Proof.
  intros Hc Hseed He Hs Ht.
  pose proof (divisor_pos args He Hs) as Hd.
  rewrite (steps_of_run unix_time args
             (reaches_loop_budget args Hc Hseed He Hs Ht)).
  unfold total_iterations, num_updates. fold (divisor args).
  pose proof (Z.mul_div_le (total_timesteps args) (divisor args) Hd) as Hle.
  pose proof (Z.mul_succ_div_gt (total_timesteps args) (divisor args) Hd) as Hgt.
  split; intros H.
  - assert (0 < total_timesteps args / divisor args) by nia. nia.
  - assert (0 < total_timesteps args / divisor args) by nia. nia.
Qed.

Lemma trains_iff_rollout_fits_witness :
  cuda (with_sizes 7 1 2 default_args) = true
  /\ 0 <= seed (with_sizes 7 1 2 default_args) < 2 ^ 32
  /\ total_timesteps (with_sizes 7 1 2 default_args) < 2 ^ 63
  /\ 0 < Z.of_nat (count is_step (trace (main 0 (with_sizes 7 1 2 default_args)))).
Proof.
  assert (Hs : 0 <= seed (with_sizes 7 1 2 default_args) < 2 ^ 32)
    by (cbn; lia).
  split; [reflexivity | split; [exact Hs | split; [reflexivity |]]].
  apply (proj2 (trains_iff_rollout_fits 0 (with_sizes 7 1 2 default_args)
                  eq_refl Hs eq_refl eq_refl eq_refl)).
  cbn. lia.
Defined.

(** ** What flows through the loop *)

Lemma filter_iterations (p : Event -> bool) (f : Z -> Event) (l : list Z) :
  (forall i, filter p (iteration i) = [f i]) ->
  filter p (flat_map iteration l) = map f l.
Proof.
  intros H. induction l as [| i l IH]; [reflexivity |].
  cbn [flat_map map]. rewrite filter_app, H, IH. reflexivity.
Qed.

Lemma filter_main (p : Event -> bool) (f : Z -> Event)
  (unix_time : Z) (args : Args) :
  (forall t n, filter p (startup t args) = [] /\ filter p (setup t args n) = []) ->
  (forall i, filter p (iteration i) = [f i]) ->
  filter p (before_numpy unix_time args) = [] ->
  filter p (trace (main unix_time args)) =
  if reaches_loop args
  then map f (range (total_iterations args))
  else [].
Proof.
  intros Hpre Hit H0. destruct (Hpre unix_time (num_updates args)) as (H1 & H2).
  rewrite main_run. unfold reaches_loop, reaches_agents.
  destruct (seed_in_range (seed args));
    [destruct (cuda args);
     [destruct (divisor args =? 0);
      [| destruct (total_iterations args <=? maxsize)] |] |];
    cbn [andb negb]; unfold trace, fst; try exact H1; try exact H0.
  - rewrite !filter_app, H1, H2, (filter_iterations p f _ Hit). reflexivity.
  - rewrite !filter_app, H1, H2. reflexivity.
Qed.

Lemma range_nth_error_inv (n : Z) (k : nat) (i : Z) :
  nth_error (range n) k = Some i -> i = Z.of_nat k /\ Z.of_nat k < n.
Proof.
  unfold range. rewrite nth_error_map, nth_error_seq.
  destruct (Nat.ltb_spec k (Z.to_nat n)) as [Hlt | Hge]; [| discriminate].
  cbn. intros [= <-]. split; lia.
Qed.

Lemma nth_error_map_range (f : Z -> Event) (n : Z) (k : nat) (e : Event) :
  nth_error (map f (range n)) k = Some e ->
  e = f (Z.of_nat k) /\ Z.of_nat k < n.
Proof.
  rewrite nth_error_map.
  destruct (nth_error (range n) k) as [i |] eqn:E; [| discriminate].
  destruct (range_nth_error_inv _ _ _ E) as (-> & Hlt).
  cbn. intros [= <-]. split; [reflexivity | exact Hlt].
Qed.

Lemma nth_error_main (p : Event -> bool) (f : Z -> Event)
  (unix_time : Z) (args : Args) (k : nat) (e : Event) :
  (forall t n, filter p (startup t args) = [] /\ filter p (setup t args n) = []) ->
  (forall i, filter p (iteration i) = [f i]) ->
  filter p (before_numpy unix_time args) = [] ->
  nth_error (filter p (trace (main unix_time args))) k = Some e ->
  e = f (Z.of_nat k) /\ Z.of_nat k < total_iterations args.
Proof.
  intros Hpre Hit H0. rewrite (filter_main p f unix_time args Hpre Hit H0).
  destruct (reaches_loop args).
  - apply nth_error_map_range.
  - destruct k; discriminate.
Qed.

(** In every run the loop passes each value on exactly as it was returned:
    the k-th [get_action] call (counting from 0) is on the ego agent with
    [record=True] and the observation returned by [env.reset()] when k is
    0, by the [env.step] call of pass k-1 otherwise; the k-th [env.step]
    call gets the action returned by the k-th [get_action]; the k-th
    [update] call is on the ego agent with the rewards and dones returned
    by the k-th [env.step].  The observation of the last [env.step] is
    never passed on (k-1 stays below the last pass). *)
Theorem loop_data_flow (unix_time : Z) (args : Args) (k : nat) :
  (forall v o r,
     nth_error (filter is_get_action (trace (main unix_time args))) k
       = Some (get_action v o r) ->
     v = ego /\ r = true
     /\ o = (if Z.of_nat k =? 0 then obs_of_reset
             else obs_of_step (Z.of_nat k - 1))
     /\ Z.of_nat k < num_updates args * num_steps args)
  /\ (forall a,
        nth_error (filter is_step (trace (main unix_time args))) k
          = Some (env_step a) ->
        a = action_of (Z.of_nat k))
  /\ (forall v r d,
        nth_error (filter is_update (trace (main unix_time args))) k
          = Some (update v r d) ->
        v = ego /\ r = rewards_of_step (Z.of_nat k)
        /\ d = dones_of_step (Z.of_nat k)).
Proof.
  split; [| split].
  - intros v o r H.
    apply (nth_error_main is_get_action
             (fun i => get_action ego (obs_before i) true)) in H;
      [| intros; split; reflexivity | reflexivity | reflexivity].
    destruct H as ([= -> -> ->] & Hlt). repeat split. exact Hlt.
  - intros a H.
    apply (nth_error_main is_step (fun i => env_step (action_of i))) in H;
      [| intros; split; reflexivity | reflexivity | reflexivity].
    destruct H as ([= ->] & _). reflexivity.
  - intros v r d H.
    apply (nth_error_main is_update
             (fun i => update ego (rewards_of_step i) (dones_of_step i))) in H;
      [| intros; split; reflexivity | reflexivity | reflexivity].
    destruct H as ([= -> -> ->] & _). repeat split.
Qed.

Lemma loop_data_flow_witness :
  nth_error (filter is_get_action
               (trace (main 0 (with_sizes 7 1 2 default_args)))) 1
    = Some (get_action ego (obs_of_step 0) true)
  /\ (ego = ego /\ true = true
      /\ obs_of_step 0 = obs_of_step (1 - 1)
      /\ 1 < 3 * 2).
Proof.
  assert (H : nth_error (filter is_get_action
                           (trace (main 0 (with_sizes 7 1 2 default_args)))) 1
              = Some (get_action ego (obs_of_step 0) true)) by reflexivity.
  split; [exact H |].
  exact (proj1 (loop_data_flow 0 (with_sizes 7 1 2 default_args) 1) _ _ _ H).
Defined.

(** ** Seeding *)

Lemma seed_in_range_iff (n : Z) :
  seed_in_range n = true <-> 0 <= n < 2 ^ 32.
Proof.
  unfold seed_in_range. rewrite Bool.andb_true_iff, Z.leb_le, Z.ltb_lt. tauto.
Qed.

(** Every run begins by printing the run name, building the backend and
    seeding [random] with [args.seed].  When the seed is one that
    [np.random.seed] takes (0 to 2**32 - 1), the run, also one that stops
    later at the assertion, the division or [tqdm], goes on to seed [numpy]
    and [torch] with the same seed and to set the cudnn flag to
    [args.torch_deterministic], and nothing after that seeds a generator or
    builds a backend again.  For any other seed the run stops there with
    [ValueError]: [numpy] and [torch] are never seeded and nothing else is
    done. *)
Theorem rngs_seeded_once_after_backend (unix_time : Z) (args : Args) :
  (0 <= seed args < 2 ^ 32 ->
   exists rest,
     trace (main unix_time args) =
       print ["Run saved to:"; run_name unix_time args]
       :: new_env (make_backend args)
       :: random_seed (seed args)
       :: np_random_seed (seed args)
       :: torch_manual_seed (seed args)
       :: set_cudnn_deterministic (torch_deterministic args)
       :: rest
     /\ count is_seed rest = 0%nat
     /\ count is_new_env rest = 0%nat)
  /\ (~ 0 <= seed args < 2 ^ 32 ->
      main unix_time args =
        ([ print ["Run saved to:"; run_name unix_time args];
           new_env (make_backend args);
           random_seed (seed args) ],
         Raised ValueError)).
Proof.
  split; intros Hs.
  - apply seed_in_range_iff in Hs. rewrite main_run, Hs.
    destruct (cuda args); [destruct (divisor args =? 0);
      [| destruct (total_iterations args <=? maxsize)] |];
      try (exists []; repeat split; reflexivity).
    + eexists. split; [reflexivity |].
      rewrite !count_app, !count_iterations_none by reflexivity.
      split; reflexivity.
    + eexists. split; [reflexivity |]. split; reflexivity.
  - rewrite main_run.
    destruct (seed_in_range (seed args)) eqn:E; [| reflexivity].
    apply seed_in_range_iff in E. contradiction.
Qed.

Lemma rngs_seeded_once_after_backend_witness :
  (0 <= seed default_args < 2 ^ 32
   /\ exists rest,
        trace (main 0 (with_cuda false default_args)) =
          print ["Run saved to:"; run_name 0 (with_cuda false default_args)]
          :: new_env (make_backend (with_cuda false default_args))
          :: random_seed 1 :: np_random_seed 1 :: torch_manual_seed 1
          :: set_cudnn_deterministic true :: rest
        /\ count is_seed rest = 0%nat)
  /\ (~ 0 <= seed (with_seed (-1) default_args) < 2 ^ 32
      /\ outcome (main 0 (with_seed (-1) default_args)) = Raised ValueError).
Proof.
  assert (Hs : 0 <= seed (with_cuda false default_args) < 2 ^ 32)
    by (cbn; lia).
  assert (Hn : ~ 0 <= seed (with_seed (-1) default_args) < 2 ^ 32)
    by (cbn; lia).
  split; (split; [assumption |]).
  - destruct (proj1 (rngs_seeded_once_after_backend 0
                       (with_cuda false default_args)) Hs)
      as (rest & Ht & Hc & _).
    exists rest. split; assumption.
  - exact (f_equal snd
             (proj2 (rngs_seeded_once_after_backend 0
                       (with_seed (-1) default_args)) Hn)).
Defined.

(** ** The seeds of the sub-environments *)

Lemma NoDup_map_injective {A B : Type} (f : A -> B) (l : list A) :
  (forall x y, f x = f y -> x = y) -> NoDup l -> NoDup (map f l).
Proof.
  intros Hf H. induction H as [| x l Hx Hl IH]; cbn; constructor; [| exact IH].
  intros Hin. apply in_map_iff in Hin. destruct Hin as (y & Hy & Hiny).
  apply Hf in Hy. subst y. contradiction.
Qed.

Lemma range_NoDup (n : Z) : NoDup (range n).
Proof.
  unfold range. apply NoDup_map_injective; [intros x y; lia | apply seq_NoDup].
Qed.

Lemma sub_env_seeds_main (unix_time : Z) (args : Args) :
  sub_env_seeds (trace (main unix_time args)) =
  if madrona args then []
  else map (fun i => seed args + i) (range (num_envs args)).
Proof.
  unfold sub_env_seeds. rewrite envs_built_main. unfold make_backend.
  destruct (madrona args); [reflexivity |].
  cbn [flat_map env_fns_of]. rewrite app_nil_r, map_map. reflexivity.
Qed.

Lemma sub_env_calls_main (unix_time : Z) (args : Args) :
  sub_env_calls (trace (main unix_time args)) =
  if madrona args then []
  else map (fun i => [ PantheonLine_new; env_seed (seed args + i);
                       action_space_seed (seed args + i);
                       observation_space_seed (seed args + i) ])
           (range (num_envs args)).
Proof.
  unfold sub_env_calls. rewrite envs_built_main. unfold make_backend.
  destruct (madrona args); [reflexivity |].
  cbn [flat_map env_fns_of]. rewrite app_nil_r, map_map. reflexivity.
Qed.

(** Without the madrona flag, no two sub-environments of a run share a
    seed: the seeds are [seed], [seed + 1], ..., one for each index of
    [range(num_envs)], pairwise different, and every one of them is at least
    [seed] and below [seed + num_envs]. *)
Theorem sync_seeds_distinct (unix_time : Z) (args : Args) :
  madrona args = false ->
  NoDup (sub_env_seeds (trace (main unix_time args)))
  /\ List.length (sub_env_seeds (trace (main unix_time args)))
     = Z.to_nat (num_envs args)
  /\ Forall (fun s => seed args <= s < seed args + num_envs args)
            (sub_env_seeds (trace (main unix_time args))).
Proof.
  intros Hm. rewrite sub_env_seeds_main, Hm. split; [| split].
  - apply NoDup_map_injective; [intros x y; lia | apply range_NoDup].
  - now rewrite length_map, range_length.
  - apply Forall_forall. intros s Hs. apply in_map_iff in Hs.
    destruct Hs as (i & <- & Hi). apply In_nth_error in Hi.
    destruct Hi as (k & Hk). apply range_nth_error_inv in Hk. lia.
Qed.

Lemma sync_seeds_distinct_witness :
  madrona (with_madrona false (with_sizes 7 3 2 default_args)) = false
  /\ NoDup (sub_env_seeds
              (trace (main 0 (with_madrona false (with_sizes 7 3 2 default_args))))).
Proof.
  split; [reflexivity |].
  exact (proj1 (sync_seeds_distinct 0
                  (with_madrona false (with_sizes 7 3 2 default_args)) eq_refl)).
Defined.

(** Runs with nearby seeds are seeded alike: without the madrona flag, if
    the seed of one run is the seed of another plus k, then sub-environment
    i of the first makes the very calls of sub-environment i + k of the
    second (same seed for the environment and for both spaces), for every
    i with both indices in range. *)
Theorem nearby_seeds_share_sub_envs (t t' : Z) (a b : Args) (k i : Z) :
  madrona a = false -> madrona b = false ->
  seed b = seed a + k ->
  0 <= k -> 0 <= i -> i + k < num_envs a -> i < num_envs b ->
  nth_error (sub_env_calls (trace (main t b))) (Z.to_nat i)
  = nth_error (sub_env_calls (trace (main t' a))) (Z.to_nat (i + k))
  /\ nth_error (sub_env_calls (trace (main t b))) (Z.to_nat i)
     = Some [ PantheonLine_new; env_seed (seed b + i);
              action_space_seed (seed b + i);
              observation_space_seed (seed b + i) ].
Proof.
  intros Ha Hb Hs Hk Hi Hik Hib.
  rewrite !sub_env_calls_main, Ha, Hb, !nth_error_map.
  rewrite (range_nth_error (num_envs b) i) by lia.
  rewrite (range_nth_error (num_envs a) (i + k)) by lia.
  cbn [option_map]. rewrite Hs.
  replace (seed a + (i + k)) with (seed a + k + i) by lia.
  split; reflexivity.
Qed.

Lemma nearby_seeds_share_sub_envs_witness :
  nth_error (sub_env_calls
               (trace (main 0 (with_seed 2 (with_madrona false default_args)))))
            (Z.to_nat 4)
  = nth_error (sub_env_calls
                 (trace (main 5 (with_madrona false default_args))))
              (Z.to_nat (4 + 1)).
Proof.
  assert (H1 : 0 <= 1) by lia.
  assert (H4 : 0 <= 4) by lia.
  exact (proj1 (nearby_seeds_share_sub_envs 0 5
                  (with_madrona false default_args)
                  (with_seed 2 (with_madrona false default_args))
                  1 4 eq_refl eq_refl eq_refl H1 H4 eq_refl eq_refl)).
Defined.

(** With the madrona flag the backend is built from [num_envs] alone: two
    runs that agree on [num_envs] build the same backend whatever their
    seeds and other arguments are, and no sub-environment is seeded by the
    script. *)
Theorem madrona_backend_ignores_seed (t t' : Z) (a b : Args) :
  madrona a = true -> madrona b = true -> num_envs a = num_envs b ->
  envs_built (trace (main t a)) = envs_built (trace (main t' b))
  /\ sub_env_seeds (trace (main t a)) = [].
Proof.
  intros Ha Hb Hn.
  rewrite !envs_built_main, sub_env_seeds_main. unfold make_backend.
  rewrite Ha, Hb, Hn. split; reflexivity.
Qed.

Lemma madrona_backend_ignores_seed_witness :
  envs_built (trace (main 0 default_args))
  = envs_built (trace (main 9 (with_seed 42 (with_cuda false default_args)))).
Proof.
  exact (proj1 (madrona_backend_ignores_seed 0 9 default_args
                  (with_seed 42 (with_cuda false default_args))
                  eq_refl eq_refl eq_refl)).
Defined.

(** ** The two agents *)

Lemma append_same_prefix (s a b : string) : s ++ a = s ++ b -> a = b.
Proof.
  induction s as [| c s IH]; cbn; [trivial |].
  intros [= H]. exact (IH H).
Qed.

(** In every run that reaches line 104 (the cuda flag true, a seed that
    [np.random.seed] takes, 0 to 2**32 - 1, and [num_envs * num_steps] not
    0) the two agents are built over the
    one backend object the run constructed, with the same [num_updates]
    (the floor quotient of line 102), [verbose=True] and the same
    hyperparameters, each taken unchanged from the arguments; they differ
    in their name only, and the names do differ. *)
Theorem agents_share_backend (unix_time : Z) (args : Args) :
  cuda args = true ->
  0 <= seed args < 2 ^ 32 ->
  num_envs args * num_steps args <> 0 ->
  exists e kw,
    envs_built (trace (main unix_time args)) = [e]
    /\ agents_built (trace (main unix_time args))
       = [ (ego, kw);
           (partner, renamed (run_name unix_time args ++ "_alt") kw) ]
    /\ kw_envs kw = e
    /\ kw_name kw = run_name unix_time args ++ "_ego"
    /\ kw_name kw <> run_name unix_time args ++ "_alt"
    /\ kw_num_updates kw
       = total_timesteps args / (num_envs args * num_steps args)
    /\ kw_verbose kw = true
    /\ (kw_lr kw, kw_num_steps kw, kw_anneal_lr kw, kw_gamma kw,
        kw_gae_lambda kw, kw_num_minibatches kw, kw_update_epochs kw)
       = (learning_rate args, num_steps args, anneal_lr args, gamma args,
          gae_lambda args, num_minibatches args, update_epochs args)
    /\ (kw_norm_adv kw, kw_clip_coef kw, kw_clip_vloss kw, kw_ent_coef kw,
        kw_vf_coef kw, kw_max_grad_norm kw, kw_target_kl kw)
       = (norm_adv args, clip_coef args, clip_vloss args, ent_coef args,
          vf_coef args, max_grad_norm args, target_kl args).
Proof.
  intros Hc Hs Hd.
  rewrite envs_built_main, agents_built_main.
  rewrite (proj2 (reaches_agents_iff args) (conj Hc (conj Hs Hd))).
  exists (make_backend args),
         (ego_kwargs (make_backend args) (run_name unix_time args)
            (num_updates args) args).
  cbn [andb negb].
  split; [reflexivity |]. split; [reflexivity |].
  repeat split.
  cbn [kw_name ego_kwargs]. intros H. apply append_same_prefix in H.
  discriminate.
Qed.

Lemma agents_share_backend_witness :
  cuda default_args = true
  /\ 0 <= seed default_args < 2 ^ 32
  /\ exists e kw,
       envs_built (trace (main 0 default_args)) = [e]
       /\ agents_built (trace (main 0 default_args))
          = [ (ego, kw);
              (partner, renamed (run_name 0 default_args ++ "_alt") kw) ]
       /\ kw_envs kw = e.
Proof.
  assert (Hd : num_envs default_args * num_steps default_args <> 0)
    by (cbn; lia).
  assert (Hs : 0 <= seed default_args < 2 ^ 32) by (cbn; lia).
  split; [reflexivity | split; [exact Hs |]].
  destruct (agents_share_backend 0 default_args eq_refl Hs Hd)
    as (e & kw & H1 & H2 & H3 & _).
  exists e, kw. repeat split; assumption.
Defined.

(** ** Which runs share a name *)

Lemma str_injective (m n : Z) : str m = str n -> m = n.
Proof.
  intros H. apply (f_equal int_of_str) in H.
  rewrite !str_round_trip in H. now injection H.
Qed.

Lemma digits_no_underscore (d : Decimal.uint) :
  Cli.mem_ascii "_" (NilEmpty.string_of_uint d) = false.
Proof. induction d; cbn; trivial. Qed.

Lemma str_no_underscore (n : Z) : Cli.mem_ascii "_" (str n) = false.
Proof.
  unfold str, NilZero.string_of_int, NilZero.string_of_uint.
  destruct (Z.to_int n) as [d | d]; destruct d; cbn; trivial;
    apply digits_no_underscore.
Qed.

(** Two texts cut at their first underscore agree piece by piece. *)
Lemma split_at_underscore (u u' r r' : string) :
  Cli.mem_ascii "_" u = false -> Cli.mem_ascii "_" u' = false ->
  u ++ String "_" r = u' ++ String "_" r' ->
  u = u' /\ r = r'.
Proof.
  revert u'. induction u as [| c u IH]; intros [| c' u']; cbn.
  - intros _ _ [= H]. now split.
  - intros _ Hu' [= <- _]. discriminate.
  - intros Hu _ [= -> _]. discriminate.
  - intros Hu Hu' [= <- H].
    apply Bool.orb_false_iff in Hu, Hu'.
    destruct (IH u' (proj2 Hu) (proj2 Hu') H) as (-> & ->). now split.
Qed.

(** Two runs get the same name exactly when they agree on the seed, on
    the second they started in, on [num_envs] and on the madrona flag: the
    name tells these four apart (the numerals and the backend word can be
    read back from it) and nothing else, so runs that differ only in other
    arguments, such as the learning rate or [exp_name], share their name. *)
Theorem run_name_injective (t t' : Z) (a a' : Args) :
  run_name t a = run_name t' a'
  <-> seed a = seed a' /\ t = t' /\ num_envs a = num_envs a'
      /\ madrona a = madrona a'.
Proof.
  unfold run_name. split.
  - intros H. apply append_same_prefix in H. cbn [append] in H.
    apply split_at_underscore in H; try apply str_no_underscore.
    destruct H as (Hs & [= H]).
    apply split_at_underscore in H; try apply str_no_underscore.
    destruct H as (Ht & [= H]).
    apply split_at_underscore in H; try apply str_no_underscore.
    destruct H as (Hn & Hb).
    apply str_injective in Hs, Ht, Hn.
    repeat split; try assumption.
    destruct (madrona a), (madrona a'); try reflexivity; discriminate.
  - intros (-> & -> & -> & ->). reflexivity.
Qed.

Example run_name_shared :
  run_name 1700000000 default_args
  = run_name 1700000000 (with_sizes 1 120 7 (with_cuda false default_args)).
Proof. reflexivity. Qed.

(** * Properties of the command line *)

Section CommandLine.

Import Cli.

Example strtobool_examples :
  strtobool "TRUE" = inr 1
  /\ strtobool "Off" = inr 0
  /\ strtobool "Maybe" = inl ValueError
  /\ strtobool "" = inl ValueError
  /\ bool_option (given "Maybe") = inl (system_exit 2 "Maybe").
Proof. repeat split. Qed.

Example rstrip_examples :
  rstrip ".py" "balance_train.py" = "balance_train"
  /\ rstrip ".py" "happy.py" = "ha"
  /\ basename "scripts/balance_train.py" = "balance_train.py"
  /\ basename "balance_train.py" = "balance_train.py".
Proof. repeat split. Qed.

(** ** Boolean options *)











End CommandLine.

(** ** The default experiment name *)

Section ExperimentName.

Import Cli.

Lemma append_empty_r (s : string) : s ++ "" = s.
Proof. induction s as [| c s IH]; cbn; [reflexivity | now rewrite IH]. Qed.

Lemma append_assoc (a b c : string) : (a ++ b) ++ c = a ++ (b ++ c).
Proof. induction a as [| x a IH]; cbn; [reflexivity | now rewrite IH]. Qed.

Lemma mem_ascii_app (c : ascii) (a b : string) :
  mem_ascii c (a ++ b) = mem_ascii c a || mem_ascii c b.
Proof.
  induction a as [| x a IH]; cbn; [reflexivity |].
  now rewrite IH, Bool.orb_assoc.
Qed.

Lemma all_in_app (chars a b : string) :
  all_in chars (a ++ b) = all_in chars a && all_in chars b.
Proof.
  induction a as [| x a IH]; cbn; [reflexivity |].
  now rewrite IH, Bool.andb_assoc.
Qed.

Lemma rstrip_all_in (chars s : string) :
  all_in chars s = true -> rstrip chars s = "".
Proof.
  induction s as [| c s IH]; cbn; [reflexivity |].
  intros H. apply Bool.andb_true_iff in H. destruct H as (Hc & Hs).
  now rewrite (IH Hs), Hc.
Qed.

(** What is stripped is given back by appending it. *)
Lemma rstrip_app (chars r suf : string) :
  all_in chars suf = true -> ends_in chars r = false ->
  rstrip chars (r ++ suf) = r.
Proof.
  intros Hsuf. induction r as [| c r IH]; intros Hr.
  - now apply rstrip_all_in.
  - destruct r as [| d r].
    + cbn [append rstrip]. rewrite (rstrip_all_in _ _ Hsuf).
      cbn in Hr. now rewrite Hr.
    + change (ends_in chars (String c (String d r)))
        with (ends_in chars (String d r)) in Hr.
      change (String c (String d r) ++ suf)
        with (String c (String d r ++ suf)).
      cbn [rstrip]. now rewrite (IH Hr).
Qed.

Lemma rstrip_decompose (chars s : string) :
  exists suf,
    s = rstrip chars s ++ suf
    /\ all_in chars suf = true
    /\ ends_in chars (rstrip chars s) = false.
Proof.
  induction s as [| c s (suf & Hs & Hsuf & Hend)].
  - exists "". repeat split.
  - cbn [rstrip]. destruct (rstrip chars s) as [| d r] eqn:E.
    + cbn in Hs. subst suf.
      destruct (mem_ascii c chars) eqn:Hc.
      * exists (String c s). cbn. now rewrite Hc, Hsuf.
      * exists s. cbn. now rewrite Hc.
    + exists suf. repeat split; [| exact Hsuf | exact Hend].
      cbn [append]. f_equal. exact Hs.
Qed.

(** [s.rstrip(chars)] is the one prefix of [s] that does not end in a
    character of [chars] and is followed in [s] by characters of [chars]
    only: it removes a set of trailing characters, not a suffix. *)
Theorem rstrip_spec (chars s r : string) :
  rstrip chars s = r
  <-> exists suf,
        s = r ++ suf /\ all_in chars suf = true /\ ends_in chars r = false.
Proof.
  split.
  - intros <-. apply rstrip_decompose.
  - intros (suf & -> & Hsuf & Hr). now apply rstrip_app.
Qed.

Lemma rstrip_app_all_in (chars s suf : string) :
  all_in chars suf = true -> rstrip chars (s ++ suf) = rstrip chars s.
Proof.
  intros Hsuf.
  destruct (rstrip_decompose chars s) as (suf0 & Hs & Hsuf0 & Hend).
  rewrite Hs at 1. rewrite append_assoc.
  apply rstrip_app; [| exact Hend].
  now rewrite all_in_app, Hsuf0, Hsuf.
Qed.

Lemma rstrip_fixed_iff (chars s : string) :
  rstrip chars s = s <-> ends_in chars s = false.
Proof.
  split.
  - intros E. destruct (rstrip_decompose chars s) as (_ & _ & _ & H).
    now rewrite E in H.
  - intros H. rewrite <- (append_empty_r s) at 1. now apply rstrip_app.
Qed.

Lemma basename_no_slash (f : string) :
  mem_ascii "/" f = false -> basename f = f.
Proof.
  destruct f as [| c f]; cbn [basename mem_ascii]; [reflexivity |].
  intros H. apply Bool.orb_false_iff in H. destruct H as (Hc & Hf).
  rewrite Hf. rewrite Ascii.eqb_sym in Hc. now rewrite Hc.
Qed.

Lemma basename_after_slash (dir f : string) :
  mem_ascii "/" f = false -> basename (dir ++ String "/" f) = f.
Proof.
  intros Hf. induction dir as [| c dir IH].
  - cbn [append basename]. now rewrite Hf, Ascii.eqb_refl.
  - cbn [append basename]. rewrite mem_ascii_app. cbn [mem_ascii].
    rewrite Ascii.eqb_refl, Bool.orb_true_r. exact IH.
Qed.

(** For a script file [stem.py], in any directory, the default of
    [--exp-name] is [stem] without its trailing characters among [.], [p]
    and [y]: it is [stem] itself exactly when [stem] does not end in one of
    these three characters. *)
Theorem default_exp_name_spec (dir stem : string) :
  mem_ascii "/" stem = false ->
  default_exp_name (dir ++ String "/" (stem ++ ".py")) = rstrip ".py" stem
  /\ default_exp_name (stem ++ ".py") = rstrip ".py" stem
  /\ (default_exp_name (dir ++ String "/" (stem ++ ".py")) = stem
      <-> ends_in ".py" stem = false).
Proof.
  intros Hstem.
  assert (Hfile : mem_ascii "/" (stem ++ ".py") = false)
    by (rewrite mem_ascii_app, Hstem; reflexivity).
  assert (H1 : default_exp_name (dir ++ String "/" (stem ++ ".py"))
               = rstrip ".py" stem).
  { unfold default_exp_name. rewrite (basename_after_slash _ _ Hfile).
    now apply rstrip_app_all_in. }
  split; [exact H1 | split].
  - unfold default_exp_name. rewrite (basename_no_slash _ Hfile).
    now apply rstrip_app_all_in.
  - rewrite H1. apply rstrip_fixed_iff.
Qed.

Lemma default_exp_name_spec_witness :
  mem_ascii "/" "balance_train" = false
  /\ default_exp_name "scripts/balance_train.py" = exp_name default_args.
Proof.
  assert (H : mem_ascii "/" "balance_train" = false) by reflexivity.
  split; [exact H |].
  apply (proj2 (proj2 (default_exp_name_spec "scripts" "balance_train" H))).
  reflexivity.
Defined.

End ExperimentName.

(** * Edge behaviour of the driver *)

(** A run stops with [ZeroDivisionError] exactly when the seed is one that
    [np.random.seed] takes (0 to 2**32 - 1), the cuda flag is true and
    [num_envs] or [num_steps] is 0 (a seed outside that range stops the run
    on line 96 and a false flag on line 100, both before the division); it
    has then printed the run name, built the backend and seeded the three
    generators, and has built no agent and made no call on [env]. *)
Theorem division_fails_iff (unix_time : Z) (args : Args) :
  (outcome (main unix_time args) = Raised ZeroDivisionError
   <-> 0 <= seed args < 2 ^ 32 /\ cuda args = true
       /\ (num_envs args = 0 \/ num_steps args = 0))
  /\ (outcome (main unix_time args) = Raised ZeroDivisionError ->
      List.length (trace (main unix_time args)) = 6%nat
      /\ envs_built (trace (main unix_time args)) = [make_backend args]
      /\ count is_seed (trace (main unix_time args)) = 3%nat
      /\ agents_built (trace (main unix_time args)) = []
      /\ filter is_env_call (trace (main unix_time args)) = []).
Proof.
  rewrite agents_built_main, env_calls_main, envs_built_main, main_run.
  unfold reaches_agents, divisor.
  rewrite <- (seed_in_range_iff (seed args)).
  destruct (seed_in_range (seed args)), (cuda args);
    cbn [andb outcome snd trace fst];
    try (split; [split; [discriminate | intros (H1 & H2 & _); discriminate]
                | discriminate]).
  destruct (Z.eqb_spec (num_envs args * num_steps args) 0) as [E | E].
  - split; [| intros _; repeat split].
    split; [intros _ | reflexivity]. repeat split. lia.
  - destruct (total_iterations args <=? maxsize);
      (split; [| discriminate]);
      (split; [discriminate | intros (_ & _ & H); nia]).
Qed.

Lemma division_fails_iff_witness :
  outcome (main 0 (with_sizes 5000000 120 0 default_args))
    = Raised ZeroDivisionError
  /\ agents_built (trace (main 0 (with_sizes 5000000 120 0 default_args))) = [].
Proof.
  assert (H : outcome (main 0 (with_sizes 5000000 120 0 default_args))
              = Raised ZeroDivisionError) by reflexivity.
  split; [exact H |].
  exact (proj1 (proj2 (proj2 (proj2
           (proj2 (division_fails_iff 0 (with_sizes 5000000 120 0 default_args))
              H))))).
Defined.

(** The [--exp-name] option has no effect: a run makes the same calls with
    the same arguments, and ends the same way, whatever the experiment name
    is (the run name starts with the fixed text [Balance_Train]). *)
Theorem exp_name_unused (unix_time : Z) (args : Args) (e : string) :
  main unix_time (with_exp_name e args) = main unix_time args.
Proof.
  rewrite !main_run.
  change (cuda (with_exp_name e args)) with (cuda args).
  change (divisor (with_exp_name e args)) with (divisor args).
  destruct (cuda args); [destruct (divisor args =? 0) |]; reflexivity.
Qed.
